(** * RIoT / Barnacle: boot-time identity engine and X.509 profile encoder

    A shallow embedding of

    - [Sample/Barnacle/Shared/Barnacle/Barnacle.c]
      ([BarnacleGetDfuStr], [BarnacleInitialProvision], [BarnacleVerifyAgent]);
    - [Simulation/RIoT/Core/RIoTCrypt/x509bldr.c]
      ([GenerateGuidFromSeed], [X509AddExtensions], [X509AddX501Name],
       [X509GetDeviceCertTBS], [X509GetAliasCertTBS], [X509GetRootCertTBS]).

    Machine integers are [Z] with the wrap-around written out, bytes are
    [Z] in [0, 256), C buffers are [list Z].  The cryptographic primitives,
    the flash programming routine and the linker-placed addresses are not
    part of these two files; they are fields of a record the engine is
    parameterised by. *)

From Stdlib Require Import ZArith List String Ascii Bool Lia.
From Equations Require Import Equations.
Import ListNotations.

Local Open Scope Z_scope.

(** ** Machine arithmetic and C buffers *)

Definition u32 (x : Z) : Z := x mod 2 ^ 32.
Definition u8 (x : Z) : Z := x mod 2 ^ 8.

(** [memset]-style constant buffer. *)
Definition memset (c : Z) (n : Z) : list Z := repeat c (Z.to_nat n).

(** Reads [n] bytes at offset [off]; a byte beyond the object reads as [0]
    (C leaves such a read undefined). *)
Definition read_bytes (buf : list Z) (off n : Z) : list Z :=
  map (fun i => nth (Z.to_nat off + i)%nat buf 0) (seq 0 (Z.to_nat n)).

(** Stores one byte at index [i] of a fixed-size array; a store outside
    the array leaves the modelled array as it is. *)
Fixpoint store_nat (buf : list Z) (i : nat) (b : Z) : list Z :=
  match buf, i with
  | [], _ => []
  | _ :: t, O => b :: t
  | h :: t, S j => h :: store_nat t j b
  end.

Definition store (buf : list Z) (i : Z) (b : Z) : list Z :=
  if i <? 0 then buf else store_nat buf (Z.to_nat i) b.

(** [memcpy(&buf[off], src, |src|)]. *)
Fixpoint memcpy_at (buf : list Z) (off : Z) (src : list Z) : list Z :=
  match src with
  | [] => buf
  | b :: t => memcpy_at (store buf off b) (off + 1) t
  end.

(** A fixed-size array filled from the output of a primitive. *)
Definition to_array (n : nat) (out : list Z) : list Z :=
  firstn n (out ++ repeat 0 n).

Definition bytes_eqb (a b : list Z) : bool :=
  if list_eq_dec Z.eq_dec a b then true else false.

(** C string held in a buffer: the bytes before the first NUL. *)
Fixpoint cstring (buf : list Z) : list Z :=
  match buf with
  | [] => []
  | b :: t => if b =? 0 then [] else b :: cstring t
  end.

(** ** [sprintf] conversions used by [BarnacleGetDfuStr] *)

Definition digit_char (d : Z) : ascii :=
  if d <? 10 then ascii_of_nat (48 + Z.to_nat d)
  else ascii_of_nat (87 + Z.to_nat d).

Fixpoint utoa_aux (base : Z) (fuel : nat) (n : Z) (acc : string) : string :=
  match fuel with
  | O => acc
  | S f =>
      let acc' := String (digit_char (n mod base)) acc in
      if n / base =? 0 then acc' else utoa_aux base f (n / base) acc'
  end.

(** An [unsigned int] has at most 32 digits in any base. *)
Definition utoa (base : Z) (n : Z) : string := utoa_aux base 32 (u32 n) "".

Fixpoint zeros (n : nat) : string :=
  match n with
  | O => EmptyString
  | S k => String "0" (zeros k)
  end.

Definition pad0 (width : nat) (s : string) : string :=
  (zeros (width - String.length s) ++ s)%string.

(** ["%02u"] *)
Definition fmt_02u (n : Z) : string := pad0 2 (utoa 10 n).
(** ["%08x"] *)
Definition fmt_08x (n : Z) : string := pad0 8 (utoa 16 n).

(** ** Constants and addresses of [Barnacle.h] and the linker script

    The header and the linker script are not among the sources; their
    constants are taken as parameters. *)

Record Layout := {
  BARNACLEMAGIC : Z;
  BARNACLEVERSION : Z;
  BARNACLE_ISSUEDFLAG_PROVISIONIED : Z;
  BARNACLE_ISSUEDFLAG_AUTHENTICATED_BOOT : Z;
  BARNACLE_ISSUEDFLAG_WRITELOCK : Z;
  AgentHdr_addr : Z;              (* (uint32_t)&AgentHdr *)
  AGENTCODE_addr : Z;             (* AGENTCODE *)
  IssuedCerts_addr : Z;           (* (uint32_t)&IssuedCerts *)
  sizeof_CertStore_certBag : Z;
  sizeof_IssuedCerts_certBag : Z;
  sizeof_FwCache_cert : Z;
  sizeof_RIOT_ECC_PUBLIC : Z
}.

Definition SHA256_DIGEST_LENGTH : nat := 32.
Definition RIOT_X509_SNUM_LEN : nat := 20.

(** ** Records of [Barnacle.h]

    The field lists are those the two source files access; the spec's
    data model names the same fields. *)

Definition RIOT_ECC_PUBLIC := list Z.
Definition RIOT_ECC_PRIVATE := list Z.
Record RIOT_ECC_SIGNATURE := { sig_r : list Z; sig_s : list Z }.

Record BARNACLE_IDENTITY_PRIVATE := {
  id_magic : Z;
  id_pubKey : RIOT_ECC_PUBLIC;
  id_privKey : RIOT_ECC_PRIVATE
}.

Record BARNACLE_CERT_INDEX := { start : Z; size : Z }.

(** Modelled from the spec: the index constants of [certTable] are declared
    in the absent header; the spec lists [certTable[ROOT, INTERMEDIATE,
    DEVICE]] for [IssuedCerts] and [certTable[ROOT, DEVICE, LOADER, AGENT]]
    for [CertStore]. *)
Inductive ISSUED_IDX :=
  BARNACLE_ISSUED_ROOT | BARNACLE_ISSUED_INTERMEDIATE | BARNACLE_ISSUED_DEVICE.

Inductive CERTSTORE_IDX :=
  BARNACLE_CERTSTORE_ROOT | BARNACLE_CERTSTORE_DEVICE
| BARNACLE_CERTSTORE_LOADER | BARNACLE_CERTSTORE_AGENT.

Definition ISSUED_IDX_eqb (a b : ISSUED_IDX) : bool :=
  match a, b with
  | BARNACLE_ISSUED_ROOT, BARNACLE_ISSUED_ROOT
  | BARNACLE_ISSUED_INTERMEDIATE, BARNACLE_ISSUED_INTERMEDIATE
  | BARNACLE_ISSUED_DEVICE, BARNACLE_ISSUED_DEVICE => true
  | _, _ => false
  end.

Definition CERTSTORE_IDX_eqb (a b : CERTSTORE_IDX) : bool :=
  match a, b with
  | BARNACLE_CERTSTORE_ROOT, BARNACLE_CERTSTORE_ROOT
  | BARNACLE_CERTSTORE_DEVICE, BARNACLE_CERTSTORE_DEVICE
  | BARNACLE_CERTSTORE_LOADER, BARNACLE_CERTSTORE_LOADER
  | BARNACLE_CERTSTORE_AGENT, BARNACLE_CERTSTORE_AGENT => true
  | _, _ => false
  end.

Definition zero_index : BARNACLE_CERT_INDEX := {| start := 0; size := 0 |}.

Record BARNACLE_ISSUED_PUBLIC := {
  ic_magic : Z;
  ic_flags : Z;
  ic_codeAuthPubKey : RIOT_ECC_PUBLIC;
  ic_certTable : ISSUED_IDX -> BARNACLE_CERT_INDEX;
  ic_cursor : Z;
  ic_certBag : list Z
}.

Record BARNACLE_CACHED_DATA := {
  fc_magic : Z;
  lastIssued : Z;
  lastVersion : Z;
  agentHdrDigest : list Z;
  compoundPubKey : RIOT_ECC_PUBLIC;
  compoundPrivKey : RIOT_ECC_PRIVATE;
  compoundCertSize : Z;
  fc_cert : list Z
}.

(** [AgentHdr.s.sign]: the signed part of the agent header. *)
Record AGENT_SIGN := {
  hdr_magic : Z;
  hdr_version : Z;
  hdr_size : Z;
  agent_name : list Z;
  agent_version : Z;
  agent_issued : Z;
  agent_size : Z;
  agent_digest : list Z
}.

Record BARNACLE_AGENT_HDR := {
  sign : AGENT_SIGN;
  signature_r : list Z;
  signature_s : list Z
}.

Record BARNACLE_CERTSTORE := {
  cs_magic : Z;
  cs_certTable : CERTSTORE_IDX -> BARNACLE_CERT_INDEX;
  cs_cursor : Z;
  cs_certBag : list Z
}.

(** [RIOT_X509_TBS_DATA]; a [const char *] field is [None] when [NULL]. *)
Record RIOT_X509_TBS_DATA := {
  SerialNum : list Z;
  IssuerCommon : option string;
  IssuerOrg : option string;
  IssuerCountry : option string;
  ValidFrom : option string;
  ValidTo : option string;
  SubjectCommon : option string;
  SubjectOrg : option string;
  SubjectCountry : option string
}.

Definition string_of_bytes (l : list Z) : string :=
  string_of_list_ascii (map (fun b => ascii_of_nat (Z.to_nat b)) l).

Definition bytes_of_string (s : string) : list Z :=
  map (fun c => Z.of_nat (nat_of_ascii c)) (list_ascii_of_string s).

(** The linker-placed objects of [Barnacle.c]. *)
Record Device := {
  AgentHdr : BARNACLE_AGENT_HDR;
  AgentCode : list Z;
  CompoundId : BARNACLE_IDENTITY_PRIVATE;
  CertStore : BARNACLE_CERTSTORE;
  IssuedCerts : BARNACLE_ISSUED_PUBLIC;
  FwDeviceId : BARNACLE_IDENTITY_PRIVATE;
  FwCache : BARNACLE_CACHED_DATA
}.

(** What a [BarnacleFlashPages] call is asked to program, and where. *)
Inductive FlashWrite :=
| WrFwDeviceId (newId : BARNACLE_IDENTITY_PRIVATE)
| WrIssuedCerts (newCertBag : BARNACLE_ISSUED_PUBLIC)
| WrFwCache (cache : BARNACLE_CACHED_DATA).

Inductive CertKind := DeviceCert | AliasCert.

(** Observable actions, in program order. *)
Inductive Event :=
| EvFlash (w : FlashWrite)                 (* BarnacleFlashPages(dst, src, n) *)
| EvPrint (msg : string)                   (* swoPrint(msg) *)
| EvRollbackVersion (last cur : Z)         (* fprintf(stderr, "... Version ...") *)
| EvRollbackIssued (last cur : Z)          (* fprintf(stderr, "... Issuance ...") *)
| EvTBS (k : CertKind) (t : RIOT_X509_TBS_DATA)  (* X509Get...CertTBS(.., &x509TBSData, ..) *)
| EvBagWrite (off len : Z).                (* store to CertStore.certBag[off .. off+len) *)

(** ** External operations used by [Barnacle.c]

    Each status-returning primitive is a function to [option]: [None] is
    any status other than success. *)

Record Platform := {
  BarnacleGetRandom : Z -> list Z;
  RiotCrypt_DeriveEccKey :
    list Z -> string -> option (RIOT_ECC_PUBLIC * RIOT_ECC_PRIVATE);
  RiotCrypt_Kdf : Z -> list Z -> string -> option (list Z);
  RiotCrypt_Hash : list Z -> option (list Z);
  RiotCrypt_Sign : list Z -> RIOT_ECC_PRIVATE -> option RIOT_ECC_SIGNATURE;
  RiotCrypt_VerifyDigest :
    list Z -> RIOT_ECC_SIGNATURE -> RIOT_ECC_PUBLIC -> bool;
  BigIntToBigVal : list Z -> list Z;
  BarnacleNullCheck : list Z -> bool;
  X509GetDeviceCertTBS :
    RIOT_X509_TBS_DATA -> RIOT_ECC_PUBLIC -> RIOT_ECC_PUBLIC -> Z ->
    option (list Z);
  X509MakeDeviceCert : list Z -> RIOT_ECC_SIGNATURE -> option (list Z);
  X509GetAliasCertTBS :
    RIOT_X509_TBS_DATA -> RIOT_ECC_PUBLIC -> RIOT_ECC_PUBLIC -> list Z -> Z ->
    option (list Z);
  X509MakeAliasCert : list Z -> RIOT_ECC_SIGNATURE -> option (list Z);
  DERtoPEM : list Z -> Z -> option (list Z);
  BarnacleFlashPages : FlashWrite -> bool;
  (* the bytes of AgentHdr.s.sign as laid out in memory *)
  sign_bytes : AGENT_SIGN -> list Z
}.

Definition RIOT_LABEL_IDENTITY : string := "Identity".
Definition RIOT_LABEL_SERIAL : string := "Serial".

(** ** [BarnacleGetDfuStr] *)

(** [char dfuString[128]] *)
Definition sizeof_dfuString : Z := 128.

(** [sprintf(&buf[cursor], ...)] with [text] the formatted output: the
    characters and the terminating NUL are stored from [cursor] on, and the
    value is the number of characters without the NUL.  A call that would
    store past the end of the array has no defined outcome. *)
Definition sprintf_at (buf : list Z) (cursor : Z) (text : string)
  : option (list Z * Z) :=
  let n := Z.of_nat (String.length text) in
  if cursor + n + 1 <=? Z.of_nat (List.length buf)
  then Some (memcpy_at buf cursor (bytes_of_string text ++ [0]), n)
  else None.

Definition dfu_group (iteration : Z) : string :=
  (fmt_02u iteration ++ "*004Kf,")%string.

(** The [while (agentArea > 0)] loop on [dfuString] and [cursor]. *)
Equations? dfu_loop (agentArea : Z) (dfuString : list Z) (cursor : Z)
  : option (list Z * Z) by wf (Z.to_nat agentArea) lt :=
dfu_loop agentArea dfuString cursor with Z_gt_dec agentArea 0 := {
  | left _ with sprintf_at dfuString cursor
                  (dfu_group (Z.min agentArea 99)) := {
      | Some (buf, n) =>
          dfu_loop (agentArea - Z.min agentArea 99) buf (u32 (cursor + n))
      | None => None }
  | right _ => Some (dfuString, cursor) }.
Proof. lia. Qed.

Definition dfu_agentArea (L : Layout) : Z :=
  u32 (u32 (IssuedCerts_addr L) - u32 (AgentHdr_addr L)) / 4096.

Definition dfu_lock_char (L : Layout) (flags : Z) : ascii :=
  if Z.land flags (BARNACLE_ISSUEDFLAG_WRITELOCK L) =? 0
  then "g"%char else "a"%char.

Definition dfu_tail (L : Layout) (flags : Z) : string :=
  ("01*04K" ++ String (dfu_lock_char L flags) EmptyString)%string.

(** [flags] is [IssuedCerts.info.flags], [dfuString] the array as the call
    finds it; the value is the array as the call leaves it, to which the
    returned pointer points. *)
Definition BarnacleGetDfuStr (L : Layout) (flags : Z) (dfuString : list Z)
  : option (list Z) :=
  let cursor := 0 in
  let agentArea := dfu_agentArea L in
  match sprintf_at dfuString cursor
          ("@Barnacle /0x" ++ fmt_08x (AgentHdr_addr L) ++ "/") with
  | None => None
  | Some (dfuString, n) =>
      let cursor := u32 (cursor + n) in
      match dfu_loop agentArea dfuString cursor with
      | None => None
      | Some (dfuString, cursor) =>
          match sprintf_at dfuString cursor (dfu_tail L flags) with
          | None => None
          | Some (dfuString, _) => Some dfuString
          end
      end
  end.

(** ** Control flow of the engine: locals, [goto Cleanup], logging *)

Record Frame := {
  dev : Device;
  result : bool;              (* the local [bool result] *)
  trace : list Event
}.

Inductive Flow (A : Type) :=
| Next (a : A)
| Cleanup.                    (* goto Cleanup *)
Arguments Next {A} a.
Arguments Cleanup {A}.

Definition M (A : Type) : Type := Frame -> Flow A * Frame.

Definition ret {A} (a : A) : M A := fun f => (Next a, f).

Definition bind {A B} (m : M A) (k : A -> M B) : M B :=
  fun f =>
    match m f with
    | (Next a, f') => k a f'
    | (Cleanup, f') => (Cleanup, f')
    end.

Notation "x <- m ;; k" := (bind m (fun x => k))
  (at level 61, m at next level, right associativity).
Notation "m ;;; k" := (bind m (fun _ => k))
  (at level 61, right associativity).

Definition goto_Cleanup {A} : M A := fun f => (Cleanup, f).

Definition get_dev : M Device := fun f => (Next (dev f), f).

Definition put_dev (d : Device) : M unit :=
  fun f => (Next tt, {| dev := d; result := result f; trace := trace f |}).

Definition set_result (b : bool) : M unit :=
  fun f => (Next tt, {| dev := dev f; result := b; trace := trace f |}).

Definition emit (e : Event) : M unit :=
  fun f => (Next tt, {| dev := dev f; result := result f;
                        trace := trace f ++ [e] |}).

Definition swoPrint (msg : string) : M unit := emit (EvPrint msg).

(** [if(!(result = (c))) { swoPrint(msg); goto Cleanup; }] *)
Definition check (c : bool) (msg : string) : M unit :=
  set_result c ;;;
  if c then ret tt else (swoPrint msg ;;; goto_Cleanup).

(** The same statement around a primitive that also produces an output. *)
Definition check_out {A} (o : option A) (msg : string) : M A :=
  match o with
  | Some a => set_result true ;;; ret a
  | None => set_result false ;;; swoPrint msg ;;; goto_Cleanup
  end.

(** The three components of a run: return value, objects, log. *)
Definition returned (r : bool * Device * list Event) : bool := fst (fst r).
Definition after (r : bool * Device * list Event) : Device := snd (fst r).
Definition events (r : bool * Device * list Event) : list Event := snd r.

(** [Cleanup: return result;] *)
Definition finish {A} (r : Flow A * Frame) : bool * Device * list Event :=
  (result (snd r), dev (snd r), trace (snd r)).

Definition run_engine (m : M unit) (d : Device) : bool * Device * list Event :=
  finish (m {| dev := d; result := true; trace := [] |}).

(** Field updates of the objects the engine assigns to. *)

Definition set_FwDeviceId (d : Device) (x : BARNACLE_IDENTITY_PRIVATE) : Device :=
  {| AgentHdr := AgentHdr d; AgentCode := AgentCode d;
     CompoundId := CompoundId d; CertStore := CertStore d;
     IssuedCerts := IssuedCerts d; FwDeviceId := x; FwCache := FwCache d |}.

Definition set_IssuedCerts (d : Device) (x : BARNACLE_ISSUED_PUBLIC) : Device :=
  {| AgentHdr := AgentHdr d; AgentCode := AgentCode d;
     CompoundId := CompoundId d; CertStore := CertStore d;
     IssuedCerts := x; FwDeviceId := FwDeviceId d; FwCache := FwCache d |}.

Definition set_FwCache (d : Device) (x : BARNACLE_CACHED_DATA) : Device :=
  {| AgentHdr := AgentHdr d; AgentCode := AgentCode d;
     CompoundId := CompoundId d; CertStore := CertStore d;
     IssuedCerts := IssuedCerts d; FwDeviceId := FwDeviceId d; FwCache := x |}.

Definition set_CompoundId (d : Device) (x : BARNACLE_IDENTITY_PRIVATE) : Device :=
  {| AgentHdr := AgentHdr d; AgentCode := AgentCode d;
     CompoundId := x; CertStore := CertStore d;
     IssuedCerts := IssuedCerts d; FwDeviceId := FwDeviceId d;
     FwCache := FwCache d |}.

Definition set_CertStore (d : Device) (x : BARNACLE_CERTSTORE) : Device :=
  {| AgentHdr := AgentHdr d; AgentCode := AgentCode d;
     CompoundId := CompoundId d; CertStore := x;
     IssuedCerts := IssuedCerts d; FwDeviceId := FwDeviceId d;
     FwCache := FwCache d |}.


Definition set_sign (d : Device) (x : AGENT_SIGN) : Device :=
  {| AgentHdr := {| sign := x; signature_r := signature_r (AgentHdr d);
                    signature_s := signature_s (AgentHdr d) |};
     AgentCode := AgentCode d;
     CompoundId := CompoundId d; CertStore := CertStore d;
     IssuedCerts := IssuedCerts d; FwDeviceId := FwDeviceId d;
     FwCache := FwCache d |}.

Definition set_rollback_fields (c : BARNACLE_CACHED_DATA) (issued version : Z)
  : BARNACLE_CACHED_DATA :=
  {| fc_magic := fc_magic c; lastIssued := issued; lastVersion := version;
     agentHdrDigest := agentHdrDigest c; compoundPubKey := compoundPubKey c;
     compoundPrivKey := compoundPrivKey c;
     compoundCertSize := compoundCertSize c; fc_cert := fc_cert c |}.

Definition issued_table_set (t : ISSUED_IDX -> BARNACLE_CERT_INDEX)
  (i : ISSUED_IDX) (e : BARNACLE_CERT_INDEX) : ISSUED_IDX -> BARNACLE_CERT_INDEX :=
  fun j => if ISSUED_IDX_eqb i j then e else t j.

Definition certstore_table_set (t : CERTSTORE_IDX -> BARNACLE_CERT_INDEX)
  (i : CERTSTORE_IDX) (e : BARNACLE_CERT_INDEX)
  : CERTSTORE_IDX -> BARNACLE_CERT_INDEX :=
  fun j => if CERTSTORE_IDX_eqb i j then e else t j.

(** [memcmp(a, b, n) == 0] *)
Definition memcmp_eq (a b : list Z) (n : nat) : bool :=
  bytes_eqb (firstn n a) (firstn n b).

(** [digest[0] &= 0x7F; digest[0] |= 0x01;] *)
Definition sanitize_serial (digest : list Z) : list Z :=
  match digest with
  | [] => []
  | b :: t => Z.lor (Z.land b 0x7F) 0x01 :: t
  end.

(** The local [uint8_t digest[SHA256_DIGEST_LENGTH]] after a primitive
    has written its output into it. *)
Definition digest_buf (out : list Z) : list Z :=
  to_array SHA256_DIGEST_LENGTH out.

Section Engine.

Context (L : Layout) (P : Platform).

Definition flag_set (flags bit : Z) : bool := negb (Z.land flags bit =? 0).

(** [BarnacleFlashPages(dst, src, n)]: the call is logged; when the routine
    reports success the region holds [src]. *)
Definition FlashPages (w : FlashWrite) : M bool :=
  emit (EvFlash w) ;;;
  if BarnacleFlashPages P w then
    d <- get_dev ;;
    put_dev (match w with
             | WrFwDeviceId x => set_FwDeviceId d x
             | WrIssuedCerts x => set_IssuedCerts d x
             | WrFwCache x => set_FwCache d x
             end) ;;;
    ret true
  else ret false.

(** *** [BarnacleInitialProvision] *)

Definition provision_identity : M bool :=
  d <- get_dev ;;
  if negb (id_magic (FwDeviceId d) =? BARNACLEMAGIC L) then
    let cdi :=
      to_array SHA256_DIGEST_LENGTH
        (BarnacleGetRandom P (Z.of_nat SHA256_DIGEST_LENGTH)) in
    keys <- check_out (RiotCrypt_DeriveEccKey P cdi RIOT_LABEL_IDENTITY)
              "ERROR: RiotCrypt_DeriveEccKey failed." ;;
    let newId := {| id_magic := BARNACLEMAGIC L;
                    id_pubKey := fst keys; id_privKey := snd keys |} in
    ok <- FlashPages (WrFwDeviceId newId) ;;
    check ok "ERROR: BarnacleFlashPages failed." ;;;
    ret true
  else ret false.

Definition device_TBSData (serial : list Z) : RIOT_X509_TBS_DATA :=
  {| SerialNum := serial;
     IssuerCommon := Some "CyReP Device"%string;
     IssuerOrg := Some "Microsoft"%string;
     IssuerCountry := Some "US"%string;
     ValidFrom := Some "170101000000Z"%string;
     ValidTo := Some "370101000000Z"%string;
     SubjectCommon := Some "CyReP Device"%string;
     SubjectOrg := Some "Microsoft"%string;
     SubjectCountry := Some "US"%string |}.

Definition provision_certs (generateCerts : bool) : M unit :=
  d <- get_dev ;;
  if generateCerts || negb (ic_magic (IssuedCerts d) =? BARNACLEMAGIC L) then
    let bag0 :=
      memset 0xff (sizeof_IssuedCerts_certBag L - 1) ++ [0] in
    let cursor0 := 0 in
    out <- check_out
             (RiotCrypt_Kdf P (Z.of_nat SHA256_DIGEST_LENGTH)
                (id_pubKey (FwDeviceId d)) RIOT_LABEL_SERIAL)
             "ERROR: RiotCrypt_Kdf failed." ;;
    let digest := sanitize_serial (digest_buf out) in
    let x509TBSData := device_TBSData (firstn RIOT_X509_SNUM_LEN digest) in
    emit (EvTBS DeviceCert x509TBSData) ;;;
    tbs <- check_out
             (X509GetDeviceCertTBS P x509TBSData (id_pubKey (FwDeviceId d))
                (id_pubKey (FwDeviceId d)) 1)
             "ERROR: X509GetDeviceCertTBS failed." ;;
    tbsSig <- check_out (RiotCrypt_Sign P tbs (id_privKey (FwDeviceId d)))
                "ERROR: RiotCrypt_Sign failed." ;;
    cert <- check_out (X509MakeDeviceCert P tbs tbsSig)
              "ERROR: X509MakeDeviceCert failed." ;;
    pem <- check_out (DERtoPEM P cert (sizeof_IssuedCerts_certBag L - cursor0))
             "ERROR: DERtoPEM failed." ;;
    let length := Z.of_nat (List.length pem) in
    let bag1 := memcpy_at bag0 cursor0 pem in
    let table :=
      issued_table_set (fun _ => zero_index) BARNACLE_ISSUED_DEVICE
        {| start := cursor0; size := length mod 2 ^ 16 |} in
    let cursor1 := u32 (cursor0 + length) in
    let bag2 := store bag1 cursor1 0 in
    let newCertBag :=
      {| ic_magic := BARNACLEMAGIC L; ic_flags := 0;
         ic_codeAuthPubKey := memset 0 (sizeof_RIOT_ECC_PUBLIC L);
         ic_certTable := table; ic_cursor := u32 (cursor1 + 1);
         ic_certBag := bag2 |} in
    ok <- FlashPages (WrIssuedCerts newCertBag) ;;
    check ok "ERROR: BarnacleFlashPages failed."
  else ret tt.

Definition BarnacleInitialProvision_body : M unit :=
  generateCerts <- provision_identity ;;
  provision_certs generateCerts.

Definition BarnacleInitialProvision (d : Device) : bool * Device * list Event :=
  run_engine BarnacleInitialProvision_body d.

(** *** [BarnacleVerifyAgent] *)

(** The bytes [RiotCrypt_Hash(.., AGENTCODE, agent.size)] reads; bytes past
    the end of the modelled [AgentCode] array are not read. *)
Definition measured_code (d : Device) : list Z :=
  firstn (Z.to_nat (agent_size (sign (AgentHdr d)))) (AgentCode d).

Definition authenticated_boot (d : Device) : bool :=
  flag_set (ic_flags (IssuedCerts d)) (BARNACLE_ISSUEDFLAG_PROVISIONIED L) &&
  flag_set (ic_flags (IssuedCerts d)) (BARNACLE_ISSUEDFLAG_AUTHENTICATED_BOOT L) &&
  negb (BarnacleNullCheck P (ic_codeAuthPubKey (IssuedCerts d))).

Definition agent_signature (d : Device) : RIOT_ECC_SIGNATURE :=
  {| sig_r := BigIntToBigVal P (signature_r (AgentHdr d));
     sig_s := BigIntToBigVal P (signature_s (AgentHdr d)) |}.

(** Header sniff, layout check, code digest, header digest, authenticated
    boot.  Yields the local [digest], the digest of [AgentHdr.s.sign]. *)
Definition verify_checks : M (list Z) :=
  d <- get_dev ;;
  let s := sign (AgentHdr d) in
  check ((hdr_magic s =? BARNACLEMAGIC L) &&
         (hdr_version s <=? BARNACLEVERSION L))
    "ERROR: Invalid agent present." ;;;
  check (AGENTCODE_addr L =? u32 (AgentHdr_addr L + hdr_size s))
    "ERROR: Unexpected agent start address." ;;;
  out <- check_out (RiotCrypt_Hash P (measured_code d))
           "ERROR: RiotCrypt_Hash failed." ;;
  check (memcmp_eq (digest_buf out) (agent_digest s) SHA256_DIGEST_LENGTH)
    "ERROR: Agent digest mismatch." ;;;
  out <- check_out (RiotCrypt_Hash P (sign_bytes P s))
           "ERROR: RiotCrypt_Hash failed." ;;
  let digest := digest_buf out in
  (if authenticated_boot d then
     check (RiotCrypt_VerifyDigest P digest (agent_signature d)
              (ic_codeAuthPubKey (IssuedCerts d)))
       "ERROR: RiotCrypt_Verify failed."
   else ret tt) ;;;
  ret digest.

(** The local [x509TBSData] of the alias certificate.  [SubjectCommon]
    points at [AgentHdr.s.sign.agent.name]: the name is the C string held
    in that field.  A field filled to its last byte, with no NUL in it,
    is read here up to its end; the C code would read on into
    [agent.version]. *)
Definition alias_TBSData (serial : list Z) (name : list Z) : RIOT_X509_TBS_DATA :=
  {| SerialNum := serial;
     IssuerCommon := Some "CyReP Device"%string;
     IssuerOrg := Some "Microsoft"%string;
     IssuerCountry := Some "US"%string;
     ValidFrom := Some "170101000000Z"%string;
     ValidTo := Some "370101000000Z"%string;
     SubjectCommon := Some (string_of_bytes (cstring name));
     SubjectOrg := None;
     SubjectCountry := None |}.

(** The two tests under [if(FwCache.info.magic == BARNACLEMAGIC)]; the
    rejects are commented out in the source. *)
Definition rollback_check : M unit :=
  d <- get_dev ;;
  let c := FwCache d in
  let s := sign (AgentHdr d) in
  if fc_magic c =? BARNACLEMAGIC L then
    (if lastVersion c >=? agent_version s
     then emit (EvRollbackVersion (lastVersion c) (agent_version s))
     else ret tt) ;;;
    (if lastIssued c >=? agent_issued s
     then emit (EvRollbackIssued (lastIssued c) (agent_issued s))
     else ret tt)
  else ret tt.

(** "Set the new cache policy" up to "Persist the new certBag in flash". *)
Definition make_alias (digest : list Z) : M unit :=
  d <- get_dev ;;
  let s := sign (AgentHdr d) in
  let cert0 := memset 0xff (sizeof_FwCache_cert L) in
  keys <- check_out (RiotCrypt_DeriveEccKey P digest RIOT_LABEL_IDENTITY)
            "ERROR: RiotCrypt_DeriveEccKey failed." ;;
  out <- check_out
           (RiotCrypt_Kdf P (Z.of_nat SHA256_DIGEST_LENGTH) (fst keys)
              RIOT_LABEL_SERIAL)
           "ERROR: RiotCrypt_Kdf failed." ;;
  let serial := sanitize_serial (digest_buf out) in
  let x509TBSData :=
    alias_TBSData (firstn RIOT_X509_SNUM_LEN serial) (agent_name s) in
  emit (EvTBS AliasCert x509TBSData) ;;;
  tbs <- check_out
           (X509GetAliasCertTBS P x509TBSData (fst keys)
              (id_pubKey (FwDeviceId d)) (agent_digest s) 1)
           "ERROR: X509GetAliasCertTBS failed." ;;
  tbsSig <- check_out (RiotCrypt_Sign P tbs (id_privKey (FwDeviceId d)))
              "ERROR: RiotCrypt_Sign failed." ;;
  cert <- check_out (X509MakeAliasCert P tbs tbsSig)
            "ERROR: X509MakeAliasCert failed." ;;
  pem <- check_out (DERtoPEM P cert (sizeof_FwCache_cert L))
           "ERROR: DERtoPEM failed." ;;
  let length := Z.of_nat (List.length pem) in
  let cache :=
    {| fc_magic := BARNACLEMAGIC L;
       lastIssued := agent_issued s;
       lastVersion := agent_version s;
       agentHdrDigest := digest;
       compoundPubKey := fst keys;
       compoundPrivKey := snd keys;
       compoundCertSize := length;
       fc_cert := store (memcpy_at cert0 0 pem) length 0 |} in
  ok <- FlashPages (WrFwCache cache) ;;
  check ok "ERROR: BarnacleFlashPages failed.".

(** The body of "first launch or first launch after an update". *)
Definition issue_alias (digest : list Z) : M unit :=
  rollback_check ;;;
  make_alias digest.

Definition cache_stale (d : Device) (digest : list Z) : bool :=
  negb (fc_magic (FwCache d) =? BARNACLEMAGIC L) ||
  negb (memcmp_eq digest (agentHdrDigest (FwCache d)) SHA256_DIGEST_LENGTH).

Definition refresh_cache (digest : list Z) : M unit :=
  d <- get_dev ;;
  if cache_stale d digest then issue_alias digest else ret tt.

(** The four statements that follow each capacity test: [memcpy], the table
    entry, [cursor += size], the terminator at [certBag[cursor++]]. *)
Definition CertStore_append (slot : CERTSTORE_IDX) (pem : list Z) (sz : Z)
  : M unit :=
  d <- get_dev ;;
  let cs := CertStore d in
  emit (EvBagWrite (cs_cursor cs) sz) ;;;
  let bag := memcpy_at (cs_certBag cs) (cs_cursor cs) pem in
  let table :=
    certstore_table_set (cs_certTable cs) slot
      {| start := cs_cursor cs; size := sz |} in
  let cursor := u32 (cs_cursor cs + sz) in
  emit (EvBagWrite cursor 1) ;;;
  put_dev (set_CertStore d
             {| cs_magic := cs_magic cs; cs_certTable := table;
                cs_cursor := u32 (cursor + 1);
                cs_certBag := store bag cursor 0 |}).

(** [if((CertStore.info.cursor + size) > sizeof(CertStore.certBag))
       { swoPrint(msg); goto Cleanup; }] *)
Definition capacity_check (sz : Z) (msg : string) : M unit :=
  d <- get_dev ;;
  if u32 (cs_cursor (CertStore d) + sz) >? sizeof_CertStore_certBag L
  then swoPrint msg ;;; goto_Cleanup
  else ret tt.

Definition handoff : M unit :=
  d <- get_dev ;;
  let d :=
    set_CompoundId d
      {| id_magic := BARNACLEMAGIC L;
         id_pubKey := compoundPubKey (FwCache d);
         id_privKey := compoundPrivKey (FwCache d) |} in
  let d :=
    set_CertStore d
      {| cs_magic := BARNACLEMAGIC L;
         cs_certTable := fun _ => zero_index;
         cs_cursor := 0;
         cs_certBag := memset 0 (sizeof_CertStore_certBag L) |} in
  put_dev d ;;;
  let ic := IssuedCerts d in
  let root := ic_certTable ic BARNACLE_ISSUED_ROOT in
  let device := ic_certTable ic BARNACLE_ISSUED_DEVICE in
  (* Issued Root *)
  capacity_check (size root)
    "ERROR: Certstore overflow BARNACLE_ISSUED_ROOT." ;;;
  (if flag_set (ic_flags ic) (BARNACLE_ISSUEDFLAG_PROVISIONIED L) &&
      negb (size root =? 0)
   then CertStore_append BARNACLE_CERTSTORE_ROOT
          (read_bytes (ic_certBag ic) (start root) (size root)) (size root)
   else ret tt) ;;;
  (* Issued or generated device *)
  capacity_check (size device)
    "ERROR: Certstore overflow BARNACLE_ISSUED_DEVICE." ;;;
  CertStore_append BARNACLE_CERTSTORE_DEVICE
    (read_bytes (ic_certBag ic) (start device) (size device)) (size device) ;;;
  (* Cached loader *)
  capacity_check (compoundCertSize (FwCache d))
    "ERROR: Certstore overflow BARNACLE_CERTSTORE_LOADER." ;;;
  CertStore_append BARNACLE_CERTSTORE_LOADER
    (read_bytes (fc_cert (FwCache d)) 0 (compoundCertSize (FwCache d)))
    (compoundCertSize (FwCache d)).

Definition BarnacleVerifyAgent_body : M unit :=
  digest <- verify_checks ;;
  refresh_cache digest ;;;
  handoff.

Definition BarnacleVerifyAgent (d : Device) : bool * Device * list Event :=
  run_engine BarnacleVerifyAgent_body d.

End Engine.

(** * [x509bldr.c] *)

Module X509Bldr.

(** ** The DER builder, as the X.509 encoder uses it

    What the builder has emitted is kept as a tree: one node per
    [DERStart...]/[DERPopNesting] pair, one leaf per [DERAdd...] call. *)

Inductive FrameKind :=
| F_Sequence | F_Set | F_Explicit (tag : Z) | F_OctetString | F_BitString.

#[warnings="-register-all"]
Inductive Asn1 :=
| Node (k : FrameKind) (items : list Asn1)
| Boolean (b : bool)
| Integer (n : Z)
| ShortExplicitInteger (n : Z)
| IntegerFromArray (bytes : list Z)
| OID (arcs : list Z)
| UTF8String (s : string)
| UTCTime (s : string)
| OctetString (bytes : list Z)
| BitString (bytes : list Z).

Record DERBuilderContext := {
  emitted : list Asn1;                        (* completed top-level objects *)
  nesting : list (FrameKind * list Asn1)      (* open frames, innermost first *)
}.

Definition DER_MAX_NESTED : nat := 8.

(** OIDs, without the [-1] sentinel that ends each array in the source. *)
Definition riotOID : list Z := [2;23;133;5;4;1].
Definition ecdsaWithSHA256OID : list Z := [1;2;840;10045;4;3;2].
Definition ecPublicKeyOID : list Z := [1;2;840;10045;2;1].
Definition keyUsageOID : list Z := [2;5;29;15].
Definition extKeyUsageOID : list Z := [2;5;29;37].
Definition extAuthKeyIdentifierOID : list Z := [2;5;29;35].
Definition clientAuthOID : list Z := [1;3;6;1;5;5;7;3;2].
Definition sha256OID : list Z := [2;16;840;1;101;3;4;2;1].
Definition commonNameOID : list Z := [2;5;4;3].
Definition countryNameOID : list Z := [2;5;4;6].
Definition orgNameOID : list Z := [2;5;4;10].
Definition basicConstraintsOID : list Z := [2;5;29;19].
Definition prime256v1OID : list Z := [1;2;840;10045;3;1;7].
Definition ansip384r1OID : list Z := [1;3;132;0;34].
Definition ansip521r1OID : list Z := [1;3;132;0;35].

Definition SHA1_DIGEST_LENGTH : nat := 20.
Definition RIOT_DIGEST_LENGTH : nat := 32.

(** What the encoder takes from the rest of the library and from the
    build configuration. *)
Record Env := {
  (* true when the encoding of the content still fits the caller's buffer *)
  fits : DERBuilderContext -> bool;
  curveOID : list Z;
  RIOT_X509_KEY_USAGE : Z;
  RIOT_COORDMAX : Z;
  RiotCrypt_ExportEccPub : RIOT_ECC_PUBLIC -> Z -> option (list Z);
  (* the digest buffer after RiotCrypt_Hash; its status is not looked at *)
  RiotCrypt_Hash : list Z -> list Z;
  mbedtls_sha1_ret : list Z -> list Z;
  (* bytes written to Output and the value left in *OutLen *)
  Base64Encode : list Z -> Z -> option (list Z * Z);
  (* content of the local guidBuffer[64] before it is written *)
  guidBuffer_init : list Z
}.

Notation "x <-? m ;; k" :=
  (match m with Some x => k | None => None end)
  (at level 61, m at next level, right associativity).

Section Builder.

Context (E : Env).

(** Modelled from the spec: [derenc.c] is absent.  Every operation "returns
    success or a signed-negative error"; it "fails with overflow if any
    append would exceed C or the nesting stack would exceed 8" and "with
    invalid pop if the stack is empty"; "a completed object has depth 0". *)

Definition DERInitContext : DERBuilderContext :=
  {| emitted := []; nesting := [] |}.

Definition commit (c : DERBuilderContext) : option DERBuilderContext :=
  if fits E c then Some c else None.

Definition add_item (c : DERBuilderContext) (a : Asn1) : DERBuilderContext :=
  match nesting c with
  | [] => {| emitted := emitted c ++ [a]; nesting := [] |}
  | (k, items) :: rest =>
      {| emitted := emitted c; nesting := (k, items ++ [a]) :: rest |}
  end.

Definition push_frame (c : DERBuilderContext) (k : FrameKind)
  : option DERBuilderContext :=
  if (List.length (nesting c) <? DER_MAX_NESTED)%nat
  then commit {| emitted := emitted c; nesting := (k, []) :: nesting c |}
  else None.

Definition DERStartSequenceOrSet (c : DERBuilderContext) (sequence : bool) :=
  push_frame c (if sequence then F_Sequence else F_Set).
Definition DERStartExplicit (c : DERBuilderContext) (n : Z) :=
  push_frame c (F_Explicit n).
Definition DERStartEnvelopingOctetString (c : DERBuilderContext) :=
  push_frame c F_OctetString.
Definition DERStartEnvelopingBitString (c : DERBuilderContext) :=
  push_frame c F_BitString.

Definition DERPopNesting (c : DERBuilderContext) : option DERBuilderContext :=
  match nesting c with
  | [] => None
  | (k, items) :: rest =>
      commit (add_item {| emitted := emitted c; nesting := rest |}
                (Node k items))
  end.

Definition DERGetNestingDepth (c : DERBuilderContext) : nat :=
  List.length (nesting c).

Definition DERAddBoolean (c : DERBuilderContext) (b : bool) :=
  commit (add_item c (Boolean b)).
Definition DERAddInteger (c : DERBuilderContext) (n : Z) :=
  commit (add_item c (Integer n)).
Definition DERAddShortExplicitInteger (c : DERBuilderContext) (n : Z) :=
  commit (add_item c (ShortExplicitInteger n)).
Definition DERAddIntegerFromArray (c : DERBuilderContext) (v : list Z) (n : nat) :=
  commit (add_item c (IntegerFromArray (firstn n v))).
Definition DERAddOID (c : DERBuilderContext) (oid : list Z) :=
  commit (add_item c (OID oid)).
Definition DERAddOctetString (c : DERBuilderContext) (v : list Z) (n : nat) :=
  commit (add_item c (OctetString (firstn n v))).
Definition DERAddBitString (c : DERBuilderContext) (v : list Z) (n : nat) :=
  commit (add_item c (BitString (firstn n v))).
(** A [NULL] string is an error here (the C call would read through it). *)
Definition DERAddUTF8String (c : DERBuilderContext) (s : option string) :=
  s <-? s ;; commit (add_item c (UTF8String s)).
Definition DERAddUTCTime (c : DERBuilderContext) (s : option string) :=
  s <-? s ;; commit (add_item c (UTCTime s)).

(** [ASRT(_X)] *)
Definition ASRT (b : bool) (c : DERBuilderContext) : option DERBuilderContext :=
  if b then Some c else None.

(** ** The functions of [x509bldr.c] *)

Definition GenerateGuidFromSeed (nameBufLen : Z) (seed : list Z)
  : option (list Z * Z) :=
  let digest := to_array RIOT_DIGEST_LENGTH (RiotCrypt_Hash E seed) in
  Base64Encode E (firstn 16 digest) nameBufLen.

Definition X509AddExtensions (Tbs : DERBuilderContext)
  (DevIdPub : list Z) (DevIdPubLen : nat) (Fwid : list Z) (FwidLen : nat)
  : option DERBuilderContext :=
  let authKeyIdentifier :=
    to_array SHA1_DIGEST_LENGTH
      (mbedtls_sha1_ret E (firstn DevIdPubLen DevIdPub)) in
  let keyUsage := RIOT_X509_KEY_USAGE E in
  let extLen := 1%nat in
  c <-? DERStartExplicit Tbs 3 ;;
  c <-? DERStartSequenceOrSet c true ;;
  (* keyUsage *)
  c <-? DERStartSequenceOrSet c true ;;
  c <-? DERAddOID c keyUsageOID ;;
  c <-? DERStartEnvelopingOctetString c ;;
  c <-? DERAddBitString c [keyUsage] extLen ;;
  c <-? DERPopNesting c ;;
  c <-? DERPopNesting c ;;
  (* extendedKeyUsage *)
  c <-? DERStartSequenceOrSet c true ;;
  c <-? DERAddOID c extKeyUsageOID ;;
  c <-? DERStartEnvelopingOctetString c ;;
  c <-? DERStartSequenceOrSet c true ;;
  c <-? DERAddOID c clientAuthOID ;;
  c <-? DERPopNesting c ;;
  c <-? DERPopNesting c ;;
  c <-? DERPopNesting c ;;
  (* authKeyIdentifier *)
  c <-? DERStartSequenceOrSet c true ;;
  c <-? DERAddOID c extAuthKeyIdentifierOID ;;
  c <-? DERStartEnvelopingOctetString c ;;
  c <-? DERStartSequenceOrSet c true ;;
  c <-? DERStartExplicit c 0 ;;
  c <-? DERAddOctetString c authKeyIdentifier 20 ;;
  c <-? DERPopNesting c ;;
  c <-? DERPopNesting c ;;
  c <-? DERPopNesting c ;;
  c <-? DERPopNesting c ;;
  (* RIoT extension *)
  c <-? DERStartSequenceOrSet c true ;;
  c <-? DERAddOID c riotOID ;;
  c <-? DERStartEnvelopingOctetString c ;;
  c <-? DERStartSequenceOrSet c true ;;
  c <-? DERAddInteger c 1 ;;
  c <-? DERStartSequenceOrSet c true ;;
  c <-? DERStartSequenceOrSet c true ;;
  c <-? DERAddOID c ecPublicKeyOID ;;
  c <-? DERAddOID c (curveOID E) ;;
  c <-? DERPopNesting c ;;
  c <-? DERAddBitString c DevIdPub DevIdPubLen ;;
  c <-? DERPopNesting c ;;
  c <-? DERStartSequenceOrSet c true ;;
  c <-? DERAddOID c sha256OID ;;
  c <-? DERAddOctetString c Fwid FwidLen ;;
  c <-? DERPopNesting c ;;
  c <-? DERPopNesting c ;;
  c <-? DERPopNesting c ;;
  c <-? DERPopNesting c ;;
  c <-? DERPopNesting c ;;
  DERPopNesting c.

Definition X509AddX501Name (Context : DERBuilderContext)
  (CommonName OrgName CountryName : option string)
  : option DERBuilderContext :=
  c <-? DERStartSequenceOrSet Context true ;;
  c <-? DERStartSequenceOrSet c false ;;
  c <-? DERStartSequenceOrSet c true ;;
  c <-? DERAddOID c commonNameOID ;;
  c <-? DERAddUTF8String c CommonName ;;
  c <-? DERPopNesting c ;;
  c <-? DERPopNesting c ;;
  c <-? DERStartSequenceOrSet c false ;;
  c <-? DERStartSequenceOrSet c true ;;
  c <-? DERAddOID c countryNameOID ;;
  c <-? DERAddUTF8String c CountryName ;;
  c <-? DERPopNesting c ;;
  c <-? DERPopNesting c ;;
  c <-? DERStartSequenceOrSet c false ;;
  c <-? DERStartSequenceOrSet c true ;;
  c <-? DERAddOID c orgNameOID ;;
  c <-? DERAddUTF8String c OrgName ;;
  c <-? DERPopNesting c ;;
  c <-? DERPopNesting c ;;
  DERPopNesting c.

Definition sizeof_encBuffer : Z := RIOT_COORDMAX E * 2 + 1.

Definition X509GetDeviceCertTBS (Tbs : DERBuilderContext)
  (TbsData : RIOT_X509_TBS_DATA) (DevIdKeyPub : RIOT_ECC_PUBLIC)
  (RootKeyPub : option (list Z)) (RootKeyPubLen : nat)
  : option DERBuilderContext :=
  let keyUsage := RIOT_X509_KEY_USAGE E in
  encBuffer <-? RiotCrypt_ExportEccPub E DevIdKeyPub sizeof_encBuffer ;;
  let encBufferLen := List.length encBuffer in
  let authKeyIdentifier :=
    match RootKeyPub with
    | Some root =>
        to_array SHA1_DIGEST_LENGTH
          (mbedtls_sha1_ret E (firstn RootKeyPubLen root))
    | None => []
    end in
  c <-? DERStartSequenceOrSet Tbs true ;;
  c <-? DERAddShortExplicitInteger c 2 ;;
  c <-? DERAddIntegerFromArray c (SerialNum TbsData) RIOT_X509_SNUM_LEN ;;
  c <-? DERStartSequenceOrSet c true ;;
  c <-? DERAddOID c ecdsaWithSHA256OID ;;
  c <-? DERPopNesting c ;;
  c <-? X509AddX501Name c (IssuerCommon TbsData) (IssuerOrg TbsData)
          (IssuerCountry TbsData) ;;
  c <-? DERStartSequenceOrSet c true ;;
  c <-? DERAddUTCTime c (ValidFrom TbsData) ;;
  c <-? DERAddUTCTime c (ValidTo TbsData) ;;
  c <-? DERPopNesting c ;;
  c <-? X509AddX501Name c (SubjectCommon TbsData) (SubjectOrg TbsData)
          (SubjectCountry TbsData) ;;
  c <-? DERStartSequenceOrSet c true ;;
  c <-? DERStartSequenceOrSet c true ;;
  c <-? DERAddOID c ecPublicKeyOID ;;
  c <-? DERAddOID c (curveOID E) ;;
  c <-? DERPopNesting c ;;
  c <-? DERAddBitString c encBuffer encBufferLen ;;
  c <-? DERPopNesting c ;;
  c <-? DERStartExplicit c 3 ;;
  c <-? DERStartSequenceOrSet c true ;;

  c <-? DERStartSequenceOrSet c true ;;
  c <-? DERAddOID c keyUsageOID ;;
  c <-? DERStartEnvelopingOctetString c ;;
  let encBufferLen := 1%nat in
  c <-? DERAddBitString c [keyUsage] encBufferLen ;;
  c <-? DERPopNesting c ;;
  c <-? DERPopNesting c ;;

  c <-? DERStartSequenceOrSet c true ;;
  c <-? DERAddOID c basicConstraintsOID ;;
  c <-? DERAddBoolean c true ;;
  c <-? DERStartEnvelopingOctetString c ;;
  c <-? DERStartSequenceOrSet c true ;;
  c <-? DERAddBoolean c true ;;
  c <-? DERAddInteger c 1 ;;
  c <-? DERPopNesting c ;;
  c <-? DERPopNesting c ;;
  c <-? DERPopNesting c ;;

  c <-? match RootKeyPub with
        | Some _ =>
            c <-? DERStartSequenceOrSet c true ;;
            c <-? DERAddOID c extAuthKeyIdentifierOID ;;
            c <-? DERStartEnvelopingOctetString c ;;
            c <-? DERStartSequenceOrSet c true ;;
            c <-? DERStartExplicit c 0 ;;
            c <-? DERAddOctetString c authKeyIdentifier 20 ;;
            c <-? DERPopNesting c ;;
            c <-? DERPopNesting c ;;
            c <-? DERPopNesting c ;;
            DERPopNesting c
        | None => Some c
        end ;;

  c <-? DERPopNesting c ;;
  c <-? DERPopNesting c ;;
  c <-? DERPopNesting c ;;

  ASRT (DERGetNestingDepth c =? 0)%nat c.

Definition starts_with_star (s : string) : bool :=
  match s with
  | String c _ => Ascii.eqb c "*"%char
  | EmptyString => false
  end.

(** The subject common name [X509GetAliasCertTBS] goes on with: the
    statements under ["*" denotes a subject common name that we'll need to
    fill in here]; a [NULL] name is an error (the C call would read
    through it). *)
Definition alias_subject_common (TbsData : RIOT_X509_TBS_DATA)
  (DevIdKeyPub : RIOT_ECC_PUBLIC) : option string :=
  name <-? SubjectCommon TbsData ;;
  if starts_with_star name then
    let bufLen := 64 in
    encBuffer <-? RiotCrypt_ExportEccPub E DevIdKeyPub sizeof_encBuffer ;;
    r <-? GenerateGuidFromSeed bufLen encBuffer ;;
    let guidBuffer := memcpy_at (to_array 64 (guidBuffer_init E)) 0 (fst r) in
    let bufLen := snd r in
    let guidBuffer := store guidBuffer (bufLen - 1) 0 in
    Some (string_of_bytes (cstring guidBuffer))
  else Some name.

Definition X509GetAliasCertTBS (Tbs : DERBuilderContext)
  (TbsData : RIOT_X509_TBS_DATA) (AliasKeyPub DevIdKeyPub : RIOT_ECC_PUBLIC)
  (Fwid : list Z) (FwidLen : nat)
  : option DERBuilderContext :=
  subjectCommon <-? alias_subject_common TbsData DevIdKeyPub ;;
  c <-? DERStartSequenceOrSet Tbs true ;;
  c <-? DERAddShortExplicitInteger c 2 ;;
  c <-? DERAddIntegerFromArray c (SerialNum TbsData) RIOT_X509_SNUM_LEN ;;
  c <-? DERStartSequenceOrSet c true ;;
  c <-? DERAddOID c ecdsaWithSHA256OID ;;
  c <-? DERPopNesting c ;;
  c <-? X509AddX501Name c (IssuerCommon TbsData) (IssuerOrg TbsData)
          (IssuerCountry TbsData) ;;
  c <-? DERStartSequenceOrSet c true ;;
  c <-? DERAddUTCTime c (ValidFrom TbsData) ;;
  c <-? DERAddUTCTime c (ValidTo TbsData) ;;
  c <-? DERPopNesting c ;;
  c <-? X509AddX501Name c (Some subjectCommon) (SubjectOrg TbsData)
          (SubjectCountry TbsData) ;;
  c <-? DERStartSequenceOrSet c true ;;
  c <-? DERStartSequenceOrSet c true ;;
  c <-? DERAddOID c ecPublicKeyOID ;;
  c <-? DERAddOID c (curveOID E) ;;
  c <-? DERPopNesting c ;;
  encBuffer <-? RiotCrypt_ExportEccPub E AliasKeyPub sizeof_encBuffer ;;
  c <-? DERAddBitString c encBuffer (List.length encBuffer) ;;
  c <-? DERPopNesting c ;;
  encBuffer <-? RiotCrypt_ExportEccPub E DevIdKeyPub sizeof_encBuffer ;;
  c <-? X509AddExtensions c encBuffer (List.length encBuffer) Fwid FwidLen ;;
  c <-? DERPopNesting c ;;
  ASRT (DERGetNestingDepth c =? 0)%nat c.

Definition X509GetRootCertTBS (Tbs : DERBuilderContext)
  (TbsData : RIOT_X509_TBS_DATA) (RootKeyPub : RIOT_ECC_PUBLIC)
  : option DERBuilderContext :=
  let keyUsage := RIOT_X509_KEY_USAGE E in
  c <-? DERStartSequenceOrSet Tbs true ;;
  c <-? DERAddShortExplicitInteger c 2 ;;
  c <-? DERAddIntegerFromArray c (SerialNum TbsData) RIOT_X509_SNUM_LEN ;;
  c <-? DERStartSequenceOrSet c true ;;
  c <-? DERAddOID c ecdsaWithSHA256OID ;;
  c <-? DERPopNesting c ;;
  c <-? X509AddX501Name c (IssuerCommon TbsData) (IssuerOrg TbsData)
          (IssuerCountry TbsData) ;;
  c <-? DERStartSequenceOrSet c true ;;
  c <-? DERAddUTCTime c (ValidFrom TbsData) ;;
  c <-? DERAddUTCTime c (ValidTo TbsData) ;;
  c <-? DERPopNesting c ;;
  c <-? X509AddX501Name c (SubjectCommon TbsData) (SubjectOrg TbsData)
          (SubjectCountry TbsData) ;;
  c <-? DERStartSequenceOrSet c true ;;
  c <-? DERStartSequenceOrSet c true ;;
  c <-? DERAddOID c ecPublicKeyOID ;;
  c <-? DERAddOID c (curveOID E) ;;
  c <-? DERPopNesting c ;;
  encBuffer <-? RiotCrypt_ExportEccPub E RootKeyPub sizeof_encBuffer ;;
  c <-? DERAddBitString c encBuffer (List.length encBuffer) ;;
  c <-? DERPopNesting c ;;
  c <-? DERStartExplicit c 3 ;;
  c <-? DERStartSequenceOrSet c true ;;
  c <-? DERStartSequenceOrSet c true ;;
  c <-? DERAddOID c keyUsageOID ;;
  c <-? DERStartEnvelopingOctetString c ;;
  let encBufferLen := 1%nat in
  c <-? DERAddBitString c [keyUsage] encBufferLen ;;
  c <-? DERPopNesting c ;;
  c <-? DERPopNesting c ;;
  c <-? DERStartSequenceOrSet c true ;;
  c <-? DERAddOID c basicConstraintsOID ;;
  c <-? DERAddBoolean c true ;;
  c <-? DERStartEnvelopingOctetString c ;;
  c <-? DERStartSequenceOrSet c true ;;
  c <-? DERAddBoolean c true ;;
  c <-? DERAddInteger c 2 ;;
  c <-? DERPopNesting c ;;
  c <-? DERPopNesting c ;;
  c <-? DERPopNesting c ;;
  c <-? DERPopNesting c ;;
  c <-? DERPopNesting c ;;
  c <-? DERPopNesting c ;;
  ASRT (DERGetNestingDepth c =? 0)%nat c.

End Builder.

End X509Bldr.

(** ** Base64 text (RFC 4648), the form [Base64Encode] produces *)

Definition b64_alphabet : string :=
  "ABCDEFGHIJKLMNOPQRSTUVWXYZabcdefghijklmnopqrstuvwxyz0123456789+/".

Definition b64_char (v : Z) : ascii :=
  match String.get (Z.to_nat v) b64_alphabet with
  | Some c => c
  | None => "="%char
  end.

Fixpoint base64 (l : list Z) : string :=
  match l with
  | [] => EmptyString
  | [a] =>
      String (b64_char (a / 4))
        (String (b64_char ((a mod 4) * 16)) "==")
  | [a; b] =>
      String (b64_char (a / 4))
        (String (b64_char ((a mod 4) * 16 + b / 16))
           (String (b64_char ((b mod 16) * 4)) "="))
  | a :: b :: c :: t =>
      String (b64_char (a / 4))
        (String (b64_char ((a mod 4) * 16 + b / 16))
           (String (b64_char ((b mod 16) * 4 + c / 64))
              (String (b64_char (c mod 64)) (base64 t))))
  end.

(** The convention of the absent [Base64Encode] that the caller's
    [guidBuffer[bufLen-1] = 0] relies on: the text is written with its
    terminator and [*OutLen] counts both. *)
Definition Base64Encode_terminated (E : X509Bldr.Env) : Prop :=
  forall input cap out n,
    X509Bldr.Base64Encode E input cap = Some (out, n) ->
    out = bytes_of_string (base64 input) ++ [0] /\
    n = Z.of_nat (List.length out) /\ n <= cap.

(** ** Reading a finished TBS *)

Module TBS.
Import X509Bldr.

(** The members of the outer SEQUENCE: version, serial, signature
    algorithm, issuer, validity, subject, SPKI, extensions. *)
Definition fields (c : DERBuilderContext) : list Asn1 :=
  match emitted c with
  | [Node F_Sequence items] => items
  | _ => []
  end.

(** The extensions inside [[3] SEQUENCE { ... }]. *)
Definition extensions (c : DERBuilderContext) : list Asn1 :=
  match nth_error (fields c) 7 with
  | Some (Node (F_Explicit 3) [Node F_Sequence exts]) => exts
  | _ => []
  end.

Definition name_CN (name : Asn1) : option string :=
  match name with
  | Node F_Sequence
      (Node F_Set [Node F_Sequence [OID oid; UTF8String s]] :: _) =>
      if list_eq_dec Z.eq_dec oid commonNameOID then Some s else None
  | _ => None
  end.

Definition subject_CN (c : DERBuilderContext) : option string :=
  match nth_error (fields c) 5 with
  | Some name => name_CN name
  | None => None
  end.

Definition ext_oid (e : Asn1) : option (list Z) :=
  match e with
  | Node F_Sequence (OID o :: _) => Some o
  | _ => None
  end.

(** The extensions of the spec's composition table. *)
Definition keyUsage (E : Env) : Asn1 :=
  Node F_Sequence
    [OID keyUsageOID;
     Node F_OctetString [BitString [RIOT_X509_KEY_USAGE E]]].

Definition extKeyUsage (purpose : list Z) : Asn1 :=
  Node F_Sequence
    [OID extKeyUsageOID;
     Node F_OctetString [Node F_Sequence [OID purpose]]].

Definition authKeyId (keyId : list Z) : Asn1 :=
  Node F_Sequence
    [OID extAuthKeyIdentifierOID;
     Node F_OctetString
       [Node F_Sequence [Node (F_Explicit 0) [OctetString keyId]]]].

Definition basicConstraints (ca : bool) (pathLen : Z) : Asn1 :=
  Node F_Sequence
    [OID basicConstraintsOID; Boolean true;
     Node F_OctetString [Node F_Sequence [Boolean ca; Integer pathLen]]].

Definition riotExtension (E : Env) (devIdPub fwid : list Z) : Asn1 :=
  Node F_Sequence
    [OID riotOID;
     Node F_OctetString
       [Node F_Sequence
          [Integer 1;
           Node F_Sequence
             [Node F_Sequence [OID ecPublicKeyOID; OID (curveOID E)];
              BitString devIdPub];
           Node F_Sequence [OID sha256OID; OctetString fwid]]]].

Definition sha1 (E : Env) (m : list Z) : list Z :=
  to_array SHA1_DIGEST_LENGTH (mbedtls_sha1_ret E m).

End TBS.

(** A concrete environment for the encoder: a roomy buffer, P-256, and
    stand-ins for the library calls. *)
Module SampleEnv.

Definition Base64Encode (input : list Z) (cap : Z) : option (list Z * Z) :=
  let out := bytes_of_string (base64 input) ++ [0] in
  if Z.of_nat (List.length out) <=? cap
  then Some (out, Z.of_nat (List.length out)) else None.

Definition env : X509Bldr.Env := {|
  X509Bldr.fits := fun _ => true;
  X509Bldr.curveOID := X509Bldr.prime256v1OID;
  X509Bldr.RIOT_X509_KEY_USAGE := 0x04;
  X509Bldr.RIOT_COORDMAX := 32;
  X509Bldr.RiotCrypt_ExportEccPub := fun key cap =>
    if Z.of_nat (List.length key) + 1 <=? cap then Some (0x04 :: key) else None;
  X509Bldr.RiotCrypt_Hash := fun m =>
    map (fun i => (Z.of_nat (List.length m) * 7 + fold_right Z.add 0 m + i * 13) mod 256)
        [0;1;2;3;4;5;6;7;8;9;10;11;12;13;14;15;16;17;18;19;20;21;22;23;24;25;
         26;27;28;29;30;31];
  X509Bldr.mbedtls_sha1_ret := fun m =>
    map (fun i => (fold_right Z.add 0 m + i * 29) mod 256)
        [0;1;2;3;4;5;6;7;8;9;10;11;12;13;14;15;16;17;18;19];
  X509Bldr.Base64Encode := Base64Encode;
  X509Bldr.guidBuffer_init := repeat 0xcc 64
|}.

Definition tbsData (subject : string) : RIOT_X509_TBS_DATA := {|
  SerialNum := [0x27; 1; 2; 3; 4; 5; 6; 7; 8; 9; 10; 11; 12; 13; 14; 15; 16;
                17; 18; 19];
  IssuerCommon := Some "CyReP Device"%string;
  IssuerOrg := Some "Microsoft"%string;
  IssuerCountry := Some "US"%string;
  ValidFrom := Some "170101000000Z"%string;
  ValidTo := Some "370101000000Z"%string;
  SubjectCommon := Some subject;
  SubjectOrg := Some "Microsoft"%string;
  SubjectCountry := Some "US"%string
|}.

Definition devIdPub : RIOT_ECC_PUBLIC := [1; 2; 3; 4; 5; 6; 7; 8].
Definition aliasPub : RIOT_ECC_PUBLIC := [9; 10; 11; 12; 13; 14; 15; 16].
Definition fwid : list Z := repeat 0xab 32.

End SampleEnv.

(** ** A small concrete platform, for evaluating the engine

    None of these is the real cryptography: they are total functions with
    the same interfaces, so that the engine can be run on concrete devices. *)

Module Sample.

Definition le32 (x : Z) : list Z :=
  [x mod 256; (x / 2 ^ 8) mod 256; (x / 2 ^ 16) mod 256; (x / 2 ^ 24) mod 256].

Definition checksum (m : list Z) : Z :=
  fold_left (fun acc b => (acc * 31 + b + 1) mod 2 ^ 32) m 7.

Definition hash (m : list Z) : list Z := to_array 32 (le32 (checksum m)).

Definition layout : Layout := {|
  BARNACLEMAGIC := 0x6d6f6854;
  BARNACLEVERSION := 0x00010000;
  BARNACLE_ISSUEDFLAG_PROVISIONIED := 1;
  BARNACLE_ISSUEDFLAG_AUTHENTICATED_BOOT := 2;
  BARNACLE_ISSUEDFLAG_WRITELOCK := 4;
  AgentHdr_addr := 0x08020000;
  AGENTCODE_addr := 0x08020800;
  IssuedCerts_addr := 0x080FE000;
  sizeof_CertStore_certBag := 96;
  sizeof_IssuedCerts_certBag := 64;
  sizeof_FwCache_cert := 128;
  sizeof_RIOT_ECC_PUBLIC := 4
|}.

Definition to_pem (der : list Z) (cap : Z) : option (list Z) :=
  let pem := [45] ++ map (fun b => 65 + b mod 26) der ++ [45] in
  if Z.of_nat (List.length pem) <=? cap then Some pem else None.

Definition platform : Platform := {|
  BarnacleGetRandom := fun n => repeat 0x5a (Z.to_nat n);
  RiotCrypt_DeriveEccKey := fun seed label =>
    Some (firstn 4 (hash (seed ++ bytes_of_string label)), firstn 4 seed);
  RiotCrypt_Kdf := fun n key label =>
    Some (map (fun b => Z.lxor b 0xff)
            (to_array (Z.to_nat n) (hash (key ++ bytes_of_string label))));
  RiotCrypt_Hash := fun m => Some (hash m);
  RiotCrypt_Sign := fun msg priv =>
    Some {| sig_r := hash msg; sig_s := priv |};
  RiotCrypt_VerifyDigest := fun digest sg pub =>
    bytes_eqb (sig_r sg) digest && bytes_eqb (sig_s sg) pub;
  BigIntToBigVal := fun b => b;
  BarnacleNullCheck := forallb (fun b => b =? 0);
  X509GetDeviceCertTBS := fun t pub root n =>
    Some (firstn 2 (SerialNum t) ++ pub);
  X509MakeDeviceCert := fun tbs sg => Some (tbs ++ firstn 2 (sig_r sg));
  X509GetAliasCertTBS := fun t pub dev fwid n =>
    Some (firstn 2 (SerialNum t) ++ pub ++ firstn 2 fwid);
  X509MakeAliasCert := fun tbs sg => Some (tbs ++ firstn 2 (sig_r sg));
  DERtoPEM := to_pem;
  BarnacleFlashPages := fun _ => true;
  sign_bytes := fun s =>
    le32 (hdr_magic s) ++ le32 (hdr_version s) ++ le32 (hdr_size s) ++
    to_array 16 (agent_name s) ++ le32 (agent_version s) ++
    le32 (agent_issued s) ++ le32 (agent_size s) ++
    to_array 32 (agent_digest s)
|}.

Definition code : list Z := [0x10; 0x20; 0x30; 0x40; 0x50; 0x60].

Definition agent_sign : AGENT_SIGN := {|
  hdr_magic := 0x6d6f6854;
  hdr_version := 0x00010000;
  hdr_size := 0x800;
  agent_name := bytes_of_string "Agent" ++ repeat 0 11;
  agent_version := 2;
  agent_issued := 1000;
  agent_size := 6;
  agent_digest := hash code
|}.

Definition erased_id : BARNACLE_IDENTITY_PRIVATE :=
  {| id_magic := 0xffffffff; id_pubKey := repeat 0xff 4;
     id_privKey := repeat 0xff 4 |}.

Definition erased_issued : BARNACLE_ISSUED_PUBLIC :=
  {| ic_magic := 0xffffffff; ic_flags := 0xffffffff;
     ic_codeAuthPubKey := repeat 0xff 4;
     ic_certTable := fun _ => {| start := 0xffff; size := 0xffff |};
     ic_cursor := 0xffffffff; ic_certBag := repeat 0xff 64 |}.

Definition erased_cache : BARNACLE_CACHED_DATA :=
  {| fc_magic := 0xffffffff; lastIssued := 0xffffffff;
     lastVersion := 0xffffffff; agentHdrDigest := repeat 0xff 32;
     compoundPubKey := repeat 0xff 4; compoundPrivKey := repeat 0xff 4;
     compoundCertSize := 0xffffffff; fc_cert := repeat 0xff 128 |}.

Definition zero_store : BARNACLE_CERTSTORE :=
  {| cs_magic := 0; cs_certTable := fun _ => zero_index; cs_cursor := 0;
     cs_certBag := repeat 0 96 |}.

(** A factory-fresh device holding a well-formed agent. *)
Definition fresh : Device := {|
  AgentHdr := {| sign := agent_sign; signature_r := []; signature_s := [] |};
  AgentCode := code ++ repeat 0xff 10;
  CompoundId := {| id_magic := 0; id_pubKey := []; id_privKey := [] |};
  CertStore := zero_store;
  IssuedCerts := erased_issued;
  FwDeviceId := erased_id;
  FwCache := erased_cache
|}.

(** The device after first-boot provisioning, and after its first boot. *)
Definition provisioned : Device :=
  Eval vm_compute in after (BarnacleInitialProvision layout platform fresh).
Definition booted : Device :=
  Eval vm_compute in after (BarnacleVerifyAgent layout platform provisioned).


(** An older agent: lower version and issuance date. *)
Definition older_sign : AGENT_SIGN := {|
  hdr_magic := 0x6d6f6854;
  hdr_version := 0x00010000;
  hdr_size := 0x800;
  agent_name := bytes_of_string "Agent" ++ repeat 0 11;
  agent_version := 1;
  agent_issued := 900;
  agent_size := 6;
  agent_digest := hash code
|}.



(** The booted device whose cached alias certificate has [n] bytes. *)
Definition with_alias_size (n : nat) : Device :=
  set_FwCache booted
    {| fc_magic := fc_magic (FwCache booted);
       lastIssued := lastIssued (FwCache booted);
       lastVersion := lastVersion (FwCache booted);
       agentHdrDigest := agentHdrDigest (FwCache booted);
       compoundPubKey := compoundPubKey (FwCache booted);
       compoundPrivKey := compoundPrivKey (FwCache booted);
       compoundCertSize := Z.of_nat n;
       fc_cert := to_array 128 (repeat 65 n ++ [0] ++ repeat 0xff 128) |}.

End Sample.

(** ** Vocabulary of the statements *)

(** The digit characters, by value. *)
Definition digit_at (d : Z) : ascii :=
  match String.get (Z.to_nat d) "0123456789abcdef" with
  | Some c => c
  | None => "?"%char
  end.

(** The last [k] digits of [n] written in base [b], most significant
    first. *)
Fixpoint numeral (b : Z) (k : nat) (n : Z) : string :=
  match k with
  | O => EmptyString
  | S k' => (numeral b k' (n / b) ++ String (digit_at (n mod b)) "")%string
  end.

(** The text of the groups for the page counts [ns]. *)
Fixpoint page_groups (ns : list Z) : string :=
  match ns with
  | [] => EmptyString
  | n :: t => (numeral 10 2 n ++ "*004Kf," ++ page_groups t)%string
  end.

Definition zsum (ns : list Z) : Z := fold_right Z.add 0 ns.

(** A text that holds no NUL character. *)
Definition nul_free (s : string) : Prop :=
  Forall (fun b => b <> 0) (bytes_of_string s).

(** The first byte of a serial number: sign bit clear, lowest bit set. *)
Definition serial_ok (serial : list Z) : Prop :=
  exists b rest,
    serial = b :: rest /\ Z.land b 0x80 = 0 /\ Z.land b 0x01 <> 0.

(** Every TBS handed to the X.509 encoder carries such a serial. *)
Definition event_serial_ok (e : Event) : Prop :=
  match e with
  | EvTBS _ t => serial_ok (SerialNum t)
  | _ => True
  end.

(** The digest of the measured agent code and of the signed header, as
    they stand in the local [digest] buffer. *)
Definition code_digest (P : Platform) (d : Device) : option (list Z) :=
  option_map digest_buf (RiotCrypt_Hash P (measured_code d)).

Definition header_digest (P : Platform) (d : Device) : option (list Z) :=
  option_map digest_buf
    (RiotCrypt_Hash P (sign_bytes P (sign (AgentHdr d)))).

(** The five checks of per-boot verification, with [dg] the header digest. *)
Definition verified (L : Layout) (P : Platform) (d : Device) (dg : list Z)
  : Prop :=
  let s := sign (AgentHdr d) in
  hdr_magic s = BARNACLEMAGIC L /\
  hdr_version s <= BARNACLEVERSION L /\
  AGENTCODE_addr L = u32 (AgentHdr_addr L + hdr_size s) /\
  (exists cd, code_digest P d = Some cd /\
              memcmp_eq cd (agent_digest s) SHA256_DIGEST_LENGTH = true) /\
  header_digest P d = Some dg /\
  (authenticated_boot L P d = true ->
   RiotCrypt_VerifyDigest P dg (agent_signature P d)
     (ic_codeAuthPubKey (IssuedCerts d)) = true).

Definition no_flash (t : list Event) : Prop := forall w, ~ In (EvFlash w) t.




Definition is_rollback_warning (e : Event) : bool :=
  match e with
  | EvRollbackVersion _ _ | EvRollbackIssued _ _ => true
  | _ => false
  end.

(** The log without the roll-back warnings. *)
Definition other_events (t : list Event) : list Event :=
  filter (fun e => negb (is_rollback_warning e)) t.

(** What the [BarnacleFlashPages] calls of a log program into [FwDeviceId]. *)
Fixpoint FwDeviceId_writes (t : list Event) : list BARNACLE_IDENTITY_PRIVATE :=
  match t with
  | [] => []
  | EvFlash (WrFwDeviceId x) :: t' => x :: FwDeviceId_writes t'
  | _ :: t' => FwDeviceId_writes t'
  end.

(** A store to [CertStore.certBag] that stays inside the array. *)
Definition bag_write_in_bounds (L : Layout) (off len : Z) : Prop :=
  0 <= off /\ off + len <= sizeof_CertStore_certBag L.

Definition overflow_messages : list string :=
  [ "ERROR: Certstore overflow BARNACLE_ISSUED_ROOT.";
    "ERROR: Certstore overflow BARNACLE_ISSUED_DEVICE.";
    "ERROR: Certstore overflow BARNACLE_CERTSTORE_LOADER." ]%string.

Definition is_flash (e : Event) : bool :=
  match e with
  | EvFlash _ => true
  | _ => false
  end.

(** The device GUID: base64 of the first 16 bytes of the digest of the
    exported DevID public key. *)
Definition device_guid (E : X509Bldr.Env) (devIdPub : list Z) : string :=
  base64
    (firstn 16
       (to_array X509Bldr.RIOT_DIGEST_LENGTH
          (X509Bldr.RiotCrypt_Hash E devIdPub))).

(** The identity [BarnacleInitialProvision] derives on first boot. *)
Definition fresh_identity (L : Layout) (P : Platform)
  (x : BARNACLE_IDENTITY_PRIVATE) : Prop :=
  id_magic x = BARNACLEMAGIC L /\
  exists keys,
    RiotCrypt_DeriveEccKey P
      (to_array SHA256_DIGEST_LENGTH
         (BarnacleGetRandom P (Z.of_nat SHA256_DIGEST_LENGTH)))
      RIOT_LABEL_IDENTITY = Some keys /\
    id_pubKey x = fst keys /\ id_privKey x = snd keys.

(** * Properties *)

(** ** Running the engine symbolically *)

Arguments memset : simpl never.
Arguments memcpy_at : simpl never.
Arguments store : simpl never.
Arguments read_bytes : simpl never.
Arguments to_array : simpl never.
Arguments digest_buf : simpl never.
Arguments sanitize_serial : simpl never.
Arguments memcmp_eq : simpl never.
Arguments u32 : simpl never.
Arguments firstn : simpl never.
Arguments Z.add : simpl never.
Arguments Z.sub : simpl never.
Arguments Z.modulo : simpl never.
Arguments Z.pow : simpl never.
Arguments Z.of_nat : simpl never.
Arguments Z.land : simpl never.
Arguments Z.eqb : simpl never.
Arguments Z.leb : simpl never.
Arguments Z.geb : simpl never.
Arguments Z.gtb : simpl never.
Arguments string_of_bytes : simpl never.
Arguments cstring : simpl never.

Ltac engine_unfold :=
  unfold BarnacleVerifyAgent, BarnacleInitialProvision, run_engine, finish,
    returned, after, events,
    BarnacleVerifyAgent_body, BarnacleInitialProvision_body,
    verify_checks, refresh_cache, issue_alias, make_alias, rollback_check,
    handoff,
    provision_identity, provision_certs,
    capacity_check, CertStore_append, FlashPages,
    check, check_out, swoPrint, emit, set_result, put_dev, get_dev,
    goto_Cleanup, bind, ret in *.

Ltac engine_case :=
  match goal with
  | |- context [if ?c then _ else _] =>
      lazymatch c with
      | context [if _ then _ else _] => fail
      | context [match _ with _ => _ end] => fail
      | _ => destruct c eqn:?
      end
  | |- context [match ?o with Some _ => _ | None => _ end] =>
      lazymatch o with
      | context [if _ then _ else _] => fail
      | context [match _ with _ => _ end] => fail
      | _ => destruct o eqn:?
      end
  end.

Ltac engine_run := engine_unfold; simpl; repeat (engine_case; simpl).

(** ** Serial numbers *)

Lemma serial_byte_ok (b : Z) :
  Z.land (Z.lor (Z.land b 0x7F) 0x01) 0x80 = 0 /\
  Z.land (Z.lor (Z.land b 0x7F) 0x01) 0x01 <> 0.
Proof.
  change 0x7F with (Z.ones 7). rewrite Z.land_ones by lia.
  pose proof (Z.mod_pos_bound b (2 ^ 7) ltac:(lia)) as Hb.
  remember (b mod 2 ^ 7) as x eqn:Hx. clear Hx b.
  assert (Hk : exists k, (k < 128)%nat /\ x = Z.of_nat k).
  { exists (Z.to_nat x). split; lia. }
  destruct Hk as (k & Hk & ->). clear Hb.
  do 128 (destruct k as [|k];
          [vm_compute; split; [reflexivity | discriminate]|]).
  lia.
Qed.

Lemma digest_buf_cons (out : list Z) :
  exists b rest, digest_buf out = b :: rest.
Proof.
  unfold digest_buf, to_array, SHA256_DIGEST_LENGTH.
  destruct out as [|b t]; eexists _, _; reflexivity.
Qed.

Lemma sanitized_serial_ok (out : list Z) :
  serial_ok (firstn RIOT_X509_SNUM_LEN (sanitize_serial (digest_buf out))).
Proof.
  destruct (digest_buf_cons out) as (b & rest & ->).
  unfold sanitize_serial, RIOT_X509_SNUM_LEN.
  eexists _, _. split; [reflexivity|]. apply serial_byte_ok.
Qed.

Ltac trace_forall :=
  repeat first
    [ apply Forall_nil
    | apply Forall_cons; [simpl; try exact I; try apply sanitized_serial_ok|] ].

(** C4: every serial number the core hands to the X.509 encoder, for the
    self-signed device certificate in [BarnacleInitialProvision] and for
    the alias certificate in [BarnacleVerifyAgent], has a first byte with
    bit [0x80] clear and bit [0x01] set, whatever the platform's KDF
    returns. *)
Theorem serial_sanity (L : Layout) (P : Platform) (d : Device) :
  Forall event_serial_ok (snd (BarnacleInitialProvision L P d)) /\
  Forall event_serial_ok (snd (BarnacleVerifyAgent L P d)).
Proof.
  split.
  - engine_run; trace_forall.
  - engine_run; trace_forall.
Qed.

(** ** Per-boot verification *)

Section VerifyAgent.

Context (L : Layout) (P : Platform).

Lemma verify_checks_spec (f : Frame) :
  match verify_checks L P f with
  | (Next dg, f') =>
      f' = {| dev := dev f; result := true; trace := trace f |} /\
      verified L P (dev f) dg
  | (Cleanup, f') =>
      (exists msg,
         f' = {| dev := dev f; result := false;
                 trace := trace f ++ [EvPrint msg] |}) /\
      forall dg, ~ verified L P (dev f) dg
  end.
Proof.
  unfold verified, code_digest, header_digest.
  engine_run.
  all: try (split; [eauto|]; intros dg (Hm & Hv & Ha & (cd & Hcd & Hcmp) & Hh & Hs)).
  all: try (apply andb_false_iff in Heqb; destruct Heqb as [Hb|Hb];
            [apply Z.eqb_neq in Hb | apply Z.leb_gt in Hb]; lia).
  all: try (apply Z.eqb_neq in Heqb0; contradiction).
  all: try solve
    [ repeat match goal with
        | H : Some _ = Some _ |- _ => injection H as <-
        | H : None = Some _ |- _ => discriminate H
        | H : true = true -> _ |- _ => specialize (H eq_refl)
        end; congruence ].
  all: apply andb_prop in Heqb; destruct Heqb as [Hm Hv].
  all: apply Z.eqb_eq in Hm; apply Z.leb_le in Hv; apply Z.eqb_eq in Heqb0.
  all: rewrite ?Heqo, ?Heqo0; simpl.
  all: repeat split; eauto; try congruence.
Qed.

Lemma verify_checks_complete (f : Frame) (dg : list Z) :
  verified L P (dev f) dg ->
  verify_checks L P f =
  (Next dg, {| dev := dev f; result := true; trace := trace f |}).
Proof.
  intros Hv. pose proof (verify_checks_spec f) as Hs.
  destruct (verify_checks L P f) as [[dg'|] f'].
  - destruct Hs as [-> Hv'].
    assert (dg' = dg).
    { destruct Hv as (_ & _ & _ & _ & H1 & _).
      destruct Hv' as (_ & _ & _ & _ & H2 & _). congruence. }
    subst. reflexivity.
  - destruct Hs as [_ Hn]. destruct (Hn dg Hv).
Qed.

(** The checks read [AgentHdr], [AgentCode] and [IssuedCerts] only. *)
Lemma verified_ext (d d' : Device) (dg : list Z) :
  AgentHdr d' = AgentHdr d -> AgentCode d' = AgentCode d ->
  IssuedCerts d' = IssuedCerts d ->
  verified L P d dg -> verified L P d' dg.
Proof.
  unfold verified, code_digest, header_digest, measured_code,
    authenticated_boot, agent_signature.
  intros -> -> ->. exact (fun H => H).
Qed.

Lemma BarnacleVerifyAgent_unfold (d : Device) :
  BarnacleVerifyAgent L P d =
  finish
    match verify_checks L P {| dev := d; result := true; trace := [] |} with
    | (Next dg, f1) =>
        match refresh_cache L P dg f1 with
        | (Next _, f2) => handoff L f2
        | (Cleanup, f2) => (Cleanup, f2)
        end
    | (Cleanup, f1) => (Cleanup, f1)
    end.
Proof.
  unfold BarnacleVerifyAgent, run_engine, BarnacleVerifyAgent_body, bind.
  destruct (verify_checks L P _) as [[dg|] f1]; [|reflexivity].
  destruct (refresh_cache L P dg f1) as [[[]|] f2]; reflexivity.
Qed.



(** The handoff makes no flash call, leaves [result] alone, and writes
    [CompoundId] and [CertStore] from [IssuedCerts] and [FwCache] only. *)
Lemma handoff_spec (f : Frame) :
  exists cid cs t,
    snd (handoff L f) =
      {| dev := set_CertStore (set_CompoundId (dev f) cid) cs;
         result := result f; trace := trace f ++ t |} /\
    no_flash t.
Proof.
  unfold no_flash. engine_run.
  all: eexists _, _, _; split;
    [ unfold set_CertStore, set_CompoundId; simpl;
      rewrite <- ?app_assoc; simpl; reflexivity
    | simpl; intros w Hin;
      repeat (destruct Hin as [Hin|Hin]; [discriminate|]); exact Hin ].
Qed.

Lemma handoff_ext (f g : Frame) :
  IssuedCerts (dev g) = IssuedCerts (dev f) ->
  FwCache (dev g) = FwCache (dev f) ->
  result g = result f -> trace g = trace f ->
  CertStore (dev (snd (handoff L g))) = CertStore (dev (snd (handoff L f))) /\
  CompoundId (dev (snd (handoff L g))) =
    CompoundId (dev (snd (handoff L f))) /\
  result (snd (handoff L g)) = result (snd (handoff L f)) /\
  trace (snd (handoff L g)) = trace (snd (handoff L f)).
Proof.
  destruct f as [[h1 c1 i1 s1 ic1 id1 fc1] r1 t1].
  destruct g as [[h2 c2 i2 s2 ic2 id2 fc2] r2 t2].
  simpl. intros -> -> -> ->.
  engine_run; repeat split; reflexivity.
Qed.

Lemma refresh_cache_fresh (f : Frame) (dg : list Z) :
  cache_stale L (dev f) dg = false ->
  refresh_cache L P dg f = (Next tt, f).
Proof.
  intros H. unfold refresh_cache, bind, get_dev, ret. now rewrite H.
Qed.

End VerifyAgent.

(** ** The integrity gate *)

Lemma no_flash_existsb (t : list Event) :
  existsb is_flash t = false -> no_flash t.
Proof.
  intros H w Hin.
  assert (existsb is_flash t = true); [|congruence].
  apply existsb_exists. exists (EvFlash w). split; [exact Hin | reflexivity].
Qed.









(** ** Idempotence of boot *)

(** C7: when [FwCache] is valid and its [agentHdrDigest] equals the SHA-256
    digest of [AgentHdr.s.sign], [BarnacleVerifyAgent] makes no
    [BarnacleFlashPages] call and leaves the flash objects as they are, and
    a second run right after it ends with the same [CertStore] (and the
    same return value and log). *)
Theorem boot_idempotent (L : Layout) (P : Platform) (d : Device) (dg : list Z) :
  fc_magic (FwCache d) = BARNACLEMAGIC L ->
  header_digest P d = Some dg ->
  memcmp_eq dg (agentHdrDigest (FwCache d)) SHA256_DIGEST_LENGTH = true ->
  let r1 := BarnacleVerifyAgent L P d in
  let r2 := BarnacleVerifyAgent L P (after r1) in
  no_flash (events r1) /\ no_flash (events r2) /\
  (FwDeviceId (after r1) = FwDeviceId d /\
   IssuedCerts (after r1) = IssuedCerts d /\
   FwCache (after r1) = FwCache d) /\
  CertStore (after r2) = CertStore (after r1) /\
  returned r2 = returned r1 /\ events r2 = events r1.
Proof.
  intros Hmagic Hdg Hcmp.
  assert (Hfresh : forall d', FwCache d' = FwCache d ->
                              cache_stale L d' dg = false).
  { intros d' E. unfold cache_stale. rewrite E, Hmagic, Z.eqb_refl, Hcmp.
    reflexivity. }
  assert (Hrun : forall d', FwCache d' = FwCache d -> verified L P d' dg ->
            BarnacleVerifyAgent L P d' =
            finish (handoff L {| dev := d'; result := true; trace := [] |})).
  { intros d' E Hv. rewrite BarnacleVerifyAgent_unfold.
    rewrite (verify_checks_complete L P _ dg) by exact Hv.
    rewrite refresh_cache_fresh by (apply Hfresh; exact E). reflexivity. }
  set (f0 := {| dev := d; result := true; trace := [] |}).
  pose proof (verify_checks_spec L P f0) as Hs.
  cbv zeta.
  destruct (verify_checks L P f0) as [[dg'|] f1] eqn:Hvc.
  - destruct Hs as [_ Hv]. simpl in Hv.
    assert (dg' = dg) as ->.
    { destruct Hv as (_ & _ & _ & _ & H & _). congruence. }
    rewrite (Hrun d eq_refl Hv). fold f0.
    destruct (handoff_spec L f0) as (cid & cs & t & Hh & Hnf).
    unfold after, events, returned, finish. cbn [fst snd].
    set (d1 := dev (snd (handoff L f0))).
    assert (Hd1 : d1 = set_CertStore (set_CompoundId d cid) cs).
    { unfold d1. rewrite Hh. reflexivity. }
    assert (Hv1 : verified L P d1 dg).
    { apply (verified_ext L P d d1); [rewrite Hd1; reflexivity..|exact Hv]. }
    assert (Hfc : FwCache d1 = FwCache d) by (rewrite Hd1; reflexivity).
    rewrite (Hrun d1 Hfc Hv1).
    unfold finish. cbn [fst snd].
    destruct (handoff_ext L f0 {| dev := d1; result := true; trace := [] |})
      as (Hcs & _ & Hres & Htr);
      [rewrite Hd1; reflexivity | exact Hfc | reflexivity | reflexivity |].
    rewrite Hcs, Hres, Htr. fold d1.
    assert (Hnf0 : no_flash (trace (snd (handoff L f0)))).
    { rewrite Hh. exact Hnf. }
    repeat split; try assumption; try (rewrite Hd1; reflexivity).
  - destruct Hs as [(msg & ->) _].
    assert (E1 : BarnacleVerifyAgent L P d = (false, d, [EvPrint msg])).
    { rewrite BarnacleVerifyAgent_unfold. fold f0. rewrite Hvc. reflexivity. }
    rewrite E1. unfold after, events, returned. cbn [fst snd]. rewrite E1.
    cbn [fst snd].
    repeat split; try (intros w [H|[]]; discriminate).
Qed.

Lemma boot_idempotent_witness :
  let r1 := BarnacleVerifyAgent Sample.layout Sample.platform Sample.booted in
  let r2 := BarnacleVerifyAgent Sample.layout Sample.platform (after r1) in
  no_flash (events r1) /\ no_flash (events r2) /\
  CertStore (after r2) = CertStore (after r1).
Proof.
  destruct (boot_idempotent Sample.layout Sample.platform Sample.booted
              (Sample.hash (sign_bytes Sample.platform Sample.agent_sign)))
    as (H1 & H2 & _ & H3 & _).
  - vm_compute. reflexivity.
  - vm_compute. reflexivity.
  - vm_compute. reflexivity.
  - cbv zeta. split; [exact H1 | split; [exact H2 | exact H3]].
Defined.

(** ** The capacity checks of the handoff *)

(** Whenever one of the three capacity checks fails, the function returns
    [true]: the overflow exits go to [Cleanup] without assigning [result]. *)
Lemma capacity_overflow_returns_true
  (L : Layout) (P : Platform) (d : Device) (msg : string) :
  In msg overflow_messages ->
  In (EvPrint msg) (events (BarnacleVerifyAgent L P d)) ->
  returned (BarnacleVerifyAgent L P d) = true.
Proof.
  intros Hmsg. engine_run.
  all: intros Hin; try reflexivity; exfalso.
  all: destruct Hmsg as [<-|[<-|[<-|[]]]].
  all: repeat (destruct Hin as [Hin|Hin]; [discriminate Hin|]); exact Hin.
Qed.

(** C2 fails on the code: the cached alias certificate of this device has
    86 bytes, the cursor stands at 11 and the bag has 96 bytes; the third
    capacity check fails, the overflow is logged, and [BarnacleVerifyAgent]
    returns [true]. *)
Example capacity_overflow_sample :
  let d := Sample.with_alias_size 86 in
  let r := BarnacleVerifyAgent Sample.layout Sample.platform d in
  sizeof_CertStore_certBag Sample.layout = 96 /\
  events r =
    [ EvBagWrite 0 10; EvBagWrite 10 1;
      EvPrint "ERROR: Certstore overflow BARNACLE_CERTSTORE_LOADER." ] /\
  returned r = true.
Proof. vm_compute. repeat split. Qed.

(** What one append writes: [sz] bytes at the cursor, then the terminator
    right after them; the cursor ends one past the terminator. *)
Lemma CertStore_append_writes
  (slot : CERTSTORE_IDX) (pem : list Z) (sz : Z) (f : Frame) :
  let cursor := cs_cursor (CertStore (dev f)) in
  let f' := snd (CertStore_append slot pem sz f) in
  trace f' =
    trace f ++ [EvBagWrite cursor sz; EvBagWrite (u32 (cursor + sz)) 1] /\
  cs_cursor (CertStore (dev f')) = u32 (u32 (cursor + sz) + 1).
Proof.
  engine_run. rewrite <- app_assoc. split; reflexivity.
Qed.

(** A capacity check that passes with no room to spare is followed by a
    terminator stored one past the end of [CertStore.certBag]. *)
Lemma CertStore_append_exact_fit
  (L : Layout) (slot : CERTSTORE_IDX) (pem : list Z) (sz : Z) (f : Frame) :
  0 <= sizeof_CertStore_certBag L < 2 ^ 32 - 1 ->
  u32 (cs_cursor (CertStore (dev f)) + sz) = sizeof_CertStore_certBag L ->
  let msg := "ERROR: Certstore overflow."%string in
  let f' := snd (CertStore_append slot pem sz f) in
  fst (capacity_check L sz msg f) = Next tt /\
  In (EvBagWrite (sizeof_CertStore_certBag L) 1) (trace f') /\
  ~ bag_write_in_bounds L (sizeof_CertStore_certBag L) 1 /\
  cs_cursor (CertStore (dev f')) = sizeof_CertStore_certBag L + 1.
Proof.
  intros Hsz Hfit. cbv zeta.
  destruct (CertStore_append_writes slot pem sz f) as [Ht Hc].
  rewrite Ht, Hc, Hfit.
  split; [|split; [|split]].
  - unfold capacity_check, bind, get_dev. simpl. rewrite Hfit.
    rewrite Z.gtb_ltb, Z.ltb_irrefl. reflexivity.
  - apply in_or_app. right. right. left. reflexivity.
  - unfold bag_write_in_bounds. lia.
  - unfold u32. apply Z.mod_small. lia.
Qed.

(** C3 fails on the code: the cached alias certificate of this device has
    85 bytes, the cursor stands at 11 and the bag has 96 bytes, so the
    third capacity check passes ([11 + 85 <= 96]); the terminator is then
    stored at index 96, one past the end of the bag, and the cursor ends
    at 97. *)
Example terminator_past_end_sample :
  let d := Sample.with_alias_size 85 in
  let r := BarnacleVerifyAgent Sample.layout Sample.platform d in
  sizeof_CertStore_certBag Sample.layout = 96 /\
  events r =
    [ EvBagWrite 0 10; EvBagWrite 10 1; EvBagWrite 11 85; EvBagWrite 96 1 ] /\
  ~ bag_write_in_bounds Sample.layout 96 1 /\
  cs_cursor (CertStore (after r)) = 97 /\
  returned r = true.
Proof.
  cbv zeta. split; [reflexivity|]. split; [vm_compute; reflexivity|].
  split; [unfold bag_write_in_bounds; simpl; lia|].
  split; vm_compute; reflexivity.
Qed.

(** ** Initial provisioning *)

Section Provision.

Context (L : Layout) (P : Platform).

Lemma provisioned_identity_kept (d : Device) :
  id_magic (FwDeviceId d) = BARNACLEMAGIC L ->
  FwDeviceId_writes (events (BarnacleInitialProvision L P d)) = [] /\
  FwDeviceId (after (BarnacleInitialProvision L P d)) = FwDeviceId d.
Proof.
  intros Hm. engine_unfold. simpl. rewrite Hm, Z.eqb_refl. simpl.
  repeat (engine_case; simpl); split; reflexivity.
Qed.

(** C5: with [FwDeviceId.info.magic == BARNACLEMAGIC] on entry,
    [BarnacleInitialProvision] makes no [BarnacleFlashPages] call on
    [FwDeviceId] and leaves it unchanged; a call on [FwDeviceId] happens
    only when the magic differs, at most once per run, with a freshly
    derived identity whose magic is [BARNACLEMAGIC]; and once such a call
    has succeeded, the next run makes none. *)
Theorem identity_written_once (d : Device) :
  let r := BarnacleInitialProvision L P d in
  (id_magic (FwDeviceId d) = BARNACLEMAGIC L ->
   FwDeviceId_writes (events r) = [] /\ FwDeviceId (after r) = FwDeviceId d) /\
  (forall x, In x (FwDeviceId_writes (events r)) ->
     id_magic (FwDeviceId d) <> BARNACLEMAGIC L /\ fresh_identity L P x) /\
  (List.length (FwDeviceId_writes (events r)) <= 1)%nat /\
  (forall x, In x (FwDeviceId_writes (events r)) ->
     BarnacleFlashPages P (WrFwDeviceId x) = true ->
     FwDeviceId (after r) = x /\
     FwDeviceId_writes
       (events (BarnacleInitialProvision L P (after r))) = []).
Proof.
  cbv zeta. split; [apply provisioned_identity_kept|].
  assert (Hwr : forall x,
            In x (FwDeviceId_writes (events (BarnacleInitialProvision L P d))) ->
            (id_magic (FwDeviceId d) <> BARNACLEMAGIC L /\ fresh_identity L P x) /\
            (BarnacleFlashPages P (WrFwDeviceId x) = true ->
             FwDeviceId (after (BarnacleInitialProvision L P d)) = x)).
  { unfold fresh_identity. engine_run.
    all: intros x Hin; simpl in Hin;
      repeat (destruct Hin as [Hin|Hin]; [subst x|]); try contradiction.
    all: apply negb_true_iff, Z.eqb_neq in Heqb.
    all: split; [split; [exact Heqb | split; [reflexivity | eauto]]|].
    all: simpl; intros Hok; try reflexivity; congruence. }
  split; [|split].
  - intros x Hin. apply Hwr. exact Hin.
  - engine_run; lia.
  - intros x Hin Hok. destruct (Hwr x Hin) as [[_ [Hmagic _]] Hafter].
    specialize (Hafter Hok). split; [exact Hafter|].
    apply provisioned_identity_kept. rewrite Hafter. exact Hmagic.
Qed.

End Provision.

Lemma identity_written_once_witness :
  let r :=
    BarnacleInitialProvision Sample.layout Sample.platform Sample.provisioned in
  FwDeviceId_writes (events r) = [] /\
  FwDeviceId (after r) = FwDeviceId Sample.provisioned.
Proof.
  apply (identity_written_once Sample.layout Sample.platform Sample.provisioned).
  vm_compute. reflexivity.
Defined.

(** ** Rollback detection *)

(** C6 as stated fails: on the booted sample device the cached version
    equals the agent's ([lastVersion >= agent.version] holds with a valid
    [FwCache]), yet a boot of the unchanged agent logs no roll-back warning
    and programs no new [FwCache]: the test sits inside the branch taken
    only when the header digest differs from the cached one. *)
Lemma rollback_unchanged_agent_counterexample :
  let d := Sample.booted in
  let r := BarnacleVerifyAgent Sample.layout Sample.platform d in
  fc_magic (FwCache d) = BARNACLEMAGIC Sample.layout /\
  lastVersion (FwCache d) >= agent_version (sign (AgentHdr d)) /\
  lastIssued (FwCache d) >= agent_issued (sign (AgentHdr d)) /\
  returned r = true /\
  existsb is_rollback_warning (events r) = false /\
  no_flash (events r).
Proof.
  cbv zeta.
  split; [vm_compute; reflexivity|].
  split; [vm_compute; discriminate|].
  split; [vm_compute; discriminate|].
  split; [vm_compute; reflexivity|].
  split; [vm_compute; reflexivity|].
  apply no_flash_existsb. vm_compute. reflexivity.
Qed.

Section Rollback.

Context (L : Layout) (P : Platform).

Lemma other_events_app (a b : list Event) :
  other_events (a ++ b) = other_events a ++ other_events b.
Proof. apply filter_app. Qed.

Lemma existsb_warning_app (a b : list Event) :
  existsb is_rollback_warning a = true ->
  existsb is_rollback_warning (a ++ b) = true.
Proof. intros H. rewrite existsb_app, H. reflexivity. Qed.

(** The roll-back tests only log. *)
Lemma rollback_check_spec (f : Frame) :
  exists w,
    rollback_check L f =
      (Next tt, {| dev := dev f; result := result f; trace := trace f ++ w |}) /\
    other_events w = [] /\
    (fc_magic (FwCache (dev f)) = BARNACLEMAGIC L ->
     lastVersion (FwCache (dev f)) >= agent_version (sign (AgentHdr (dev f))) \/
     lastIssued (FwCache (dev f)) >= agent_issued (sign (AgentHdr (dev f))) ->
     existsb is_rollback_warning w = true).
Proof.
  destruct f as [d r t]. engine_run.
  all: first
    [ eexists [_; _]; split; [rewrite <- app_assoc; reflexivity|]
    | eexists [_]; split; [reflexivity|]
    | exists []; split; [rewrite app_nil_r; reflexivity|] ].
  all: split; [reflexivity|]; intros Hm Hr; try reflexivity; exfalso.
  - rewrite Z.geb_leb, Z.leb_gt in Heqb0, Heqb1. lia.
  - apply Z.eqb_neq in Heqb. contradiction.
Qed.

(** Deriving and persisting the alias identity reads [AgentHdr] and
    [FwDeviceId] only; it ends in [Cleanup] with the objects as they were,
    or goes on with [FwCache] replaced by the new record. *)
Lemma make_alias_ext (dg : list Z) (f g : Frame) :
  AgentHdr (dev g) = AgentHdr (dev f) ->
  FwDeviceId (dev g) = FwDeviceId (dev f) ->
  exists flow res t df dg',
    make_alias L P dg f =
      (flow, {| dev := df; result := res; trace := trace f ++ t |}) /\
    make_alias L P dg g =
      (flow, {| dev := dg'; result := res; trace := trace g ++ t |}) /\
    ((flow = Cleanup /\ df = dev f /\ dg' = dev g) \/
     (exists c, df = set_FwCache (dev f) c /\ dg' = set_FwCache (dev g) c)).
Proof.
  destruct f as [[h1 c1 i1 s1 ic1 id1 fc1] r1 t1].
  destruct g as [[h2 c2 i2 s2 ic2 id2 fc2] r2 t2].
  simpl. intros -> ->.
  engine_run.
  all: eexists _, _, _, _, _; split;
    [ rewrite <- ?app_assoc; simpl; reflexivity | split;
      [ rewrite <- ?app_assoc; simpl; reflexivity | ] ].
  all: first [ left; repeat split; reflexivity
             | right; eexists; split; reflexivity ].
Qed.

(** The handoff appends to the log what [IssuedCerts] and [FwCache]
    dictate, none of it a flash call, and leaves [result] alone. *)
Lemma handoff_log_ext (f g : Frame) :
  IssuedCerts (dev g) = IssuedCerts (dev f) ->
  FwCache (dev g) = FwCache (dev f) ->
  exists h,
    trace (snd (handoff L f)) = trace f ++ h /\
    trace (snd (handoff L g)) = trace g ++ h /\
    result (snd (handoff L f)) = result f /\
    result (snd (handoff L g)) = result g /\
    FwCache (dev (snd (handoff L f))) = FwCache (dev f).
Proof.
  destruct f as [[h1 c1 i1 s1 ic1 id1 fc1] r1 t1].
  destruct g as [[h2 c2 i2 s2 ic2 id2 fc2] r2 t2].
  simpl. intros -> ->.
  engine_run.
  all: eexists; split; [rewrite <- ?app_assoc; simpl; reflexivity|].
  all: split; [rewrite <- ?app_assoc; simpl; reflexivity|].
  all: repeat split; reflexivity.
Qed.

Lemma make_alias_success (dg : list Z) (f : Frame)
  keys out tbs sg cert pem :
  let d := dev f in
  RiotCrypt_DeriveEccKey P dg RIOT_LABEL_IDENTITY = Some keys ->
  RiotCrypt_Kdf P (Z.of_nat SHA256_DIGEST_LENGTH) (fst keys)
    RIOT_LABEL_SERIAL = Some out ->
  X509GetAliasCertTBS P
    (alias_TBSData
       (firstn RIOT_X509_SNUM_LEN (sanitize_serial (digest_buf out)))
       (agent_name (sign (AgentHdr d))))
    (fst keys) (id_pubKey (FwDeviceId d))
    (agent_digest (sign (AgentHdr d))) 1 = Some tbs ->
  RiotCrypt_Sign P tbs (id_privKey (FwDeviceId d)) = Some sg ->
  X509MakeAliasCert P tbs sg = Some cert ->
  DERtoPEM P cert (sizeof_FwCache_cert L) = Some pem ->
  (forall c, BarnacleFlashPages P (WrFwCache c) = true) ->
  exists c e,
    make_alias L P dg f =
      (Next tt, {| dev := set_FwCache d c; result := true;
                   trace := trace f ++ [e; EvFlash (WrFwCache c)] |}) /\
    fc_magic c = BARNACLEMAGIC L /\
    lastVersion c = agent_version (sign (AgentHdr d)) /\
    lastIssued c = agent_issued (sign (AgentHdr d)) /\
    agentHdrDigest c = dg /\
    compoundPubKey c = fst keys /\
    compoundCertSize c = Z.of_nat (List.length pem).
Proof.
  cbv zeta. intros Hk Ho Ht Hs Hc Hp Hflash.
  engine_unfold. simpl.
  rewrite Hk. simpl. rewrite Ho. simpl. rewrite Ht. simpl.
  rewrite Hs. simpl. rewrite Hc. simpl. rewrite Hp. simpl.
  rewrite Hflash. simpl.
  eexists _, _. split; [rewrite <- app_assoc; reflexivity|].
  repeat split; reflexivity.
Qed.

(** C6, as the code has it: for an image that passes verification, with a
    valid [FwCache] whose digest differs from the header digest and
    [lastVersion >= agent.version] or [lastIssued >= agent.issued],
    [BarnacleVerifyAgent] logs a roll-back warning; its return value and
    every other logged action (the flash calls among them) do not depend
    on the cached version and issuance date; and when the primitives and
    the flash routine succeed it returns true having programmed a new
    [FwCache] for this agent. *)
Theorem rollback_warns_and_proceeds (d : Device) (dg : list Z) :
  verified L P d dg ->
  fc_magic (FwCache d) = BARNACLEMAGIC L ->
  memcmp_eq dg (agentHdrDigest (FwCache d)) SHA256_DIGEST_LENGTH = false ->
  lastVersion (FwCache d) >= agent_version (sign (AgentHdr d)) \/
  lastIssued (FwCache d) >= agent_issued (sign (AgentHdr d)) ->
  let r := BarnacleVerifyAgent L P d in
  existsb is_rollback_warning (events r) = true /\
  (forall issued version,
     let r' :=
       BarnacleVerifyAgent L P
         (set_FwCache d (set_rollback_fields (FwCache d) issued version)) in
     returned r' = returned r /\
     other_events (events r') = other_events (events r)) /\
  (forall keys out tbs sg cert pem,
     RiotCrypt_DeriveEccKey P dg RIOT_LABEL_IDENTITY = Some keys ->
     RiotCrypt_Kdf P (Z.of_nat SHA256_DIGEST_LENGTH) (fst keys)
       RIOT_LABEL_SERIAL = Some out ->
     X509GetAliasCertTBS P
       (alias_TBSData
          (firstn RIOT_X509_SNUM_LEN (sanitize_serial (digest_buf out)))
          (agent_name (sign (AgentHdr d))))
       (fst keys) (id_pubKey (FwDeviceId d))
       (agent_digest (sign (AgentHdr d))) 1 = Some tbs ->
     RiotCrypt_Sign P tbs (id_privKey (FwDeviceId d)) = Some sg ->
     X509MakeAliasCert P tbs sg = Some cert ->
     DERtoPEM P cert (sizeof_FwCache_cert L) = Some pem ->
     (forall c, BarnacleFlashPages P (WrFwCache c) = true) ->
     returned r = true /\
     In (EvFlash (WrFwCache (FwCache (after r)))) (events r) /\
     fc_magic (FwCache (after r)) = BARNACLEMAGIC L /\
     lastVersion (FwCache (after r)) = agent_version (sign (AgentHdr d)) /\
     lastIssued (FwCache (after r)) = agent_issued (sign (AgentHdr d)) /\
     agentHdrDigest (FwCache (after r)) = dg /\
     compoundPubKey (FwCache (after r)) = fst keys /\
     compoundCertSize (FwCache (after r)) = Z.of_nat (List.length pem)).
Proof.
  intros Hv Hmagic Hcmp Hroll. cbv zeta.
  assert (Hrun : forall d', AgentHdr d' = AgentHdr d ->
            AgentCode d' = AgentCode d -> IssuedCerts d' = IssuedCerts d ->
            fc_magic (FwCache d') = fc_magic (FwCache d) ->
            agentHdrDigest (FwCache d') = agentHdrDigest (FwCache d) ->
            BarnacleVerifyAgent L P d' =
            finish
              match rollback_check L
                      {| dev := d'; result := true; trace := [] |} with
              | (Next _, f1) =>
                  match make_alias L P dg f1 with
                  | (Next _, f2) => handoff L f2
                  | (Cleanup, f2) => (Cleanup, f2)
                  end
              | (Cleanup, f1) => (Cleanup, f1)
              end).
  { intros d' E1 E2 E3 E4 E5. rewrite BarnacleVerifyAgent_unfold.
    rewrite (verify_checks_complete L P _ dg)
      by (apply (verified_ext L P d d'); assumption).
    unfold refresh_cache, issue_alias, bind, get_dev, cache_stale.
    cbn [dev]. rewrite E4, E5, Hmagic, Z.eqb_refl, Hcmp. cbn [negb orb].
    destruct (rollback_check L _) as [[[]|] f1]; [|reflexivity].
    destruct (make_alias L P dg f1) as [[[]|] f2]; reflexivity. }
  set (f0 := {| dev := d; result := true; trace := [] |}).
  destruct (rollback_check_spec f0) as (w & Hw & Hwo & Hwe).
  specialize (Hwe Hmagic Hroll).
  split; [|split].
  - rewrite (Hrun d eq_refl eq_refl eq_refl eq_refl eq_refl).
    fold f0. rewrite Hw. cbn [dev result trace f0 app].
    destruct (make_alias_ext dg
                {| dev := d; result := true; trace := w |}
                {| dev := d; result := true; trace := w |} eq_refl eq_refl)
      as (flow & res & t & df & dg' & Hm1 & _ & _).
    rewrite Hm1. cbn [trace] in *.
    destruct flow as [[]|].
    + destruct (handoff_log_ext
                  {| dev := df; result := res; trace := w ++ t |}
                  {| dev := df; result := res; trace := w ++ t |}
                  eq_refl eq_refl) as (h & Hh & _).
      unfold events, finish. cbn [fst snd]. rewrite Hh. cbn [trace].
      rewrite <- app_assoc. apply existsb_warning_app. exact Hwe.
    + unfold events, finish. cbn [fst snd trace].
      apply existsb_warning_app. exact Hwe.
  - intros issued version.
    set (d' := set_FwCache d (set_rollback_fields (FwCache d) issued version)).
    rewrite (Hrun d eq_refl eq_refl eq_refl eq_refl eq_refl).
    rewrite (Hrun d' eq_refl eq_refl eq_refl eq_refl eq_refl).
    fold f0. rewrite Hw. cbn [dev result trace f0 app].
    destruct (rollback_check_spec {| dev := d'; result := true; trace := [] |})
      as (w' & Hw' & Hwo' & _).
    rewrite Hw'. cbn [dev result trace app].
    destruct (make_alias_ext dg
                {| dev := d; result := true; trace := w |}
                {| dev := d'; result := true; trace := w' |} eq_refl eq_refl)
      as (flow & res & t & df & dg' & Hm1 & Hm2 & Hdev).
    rewrite Hm1, Hm2. cbn [dev trace] in *.
    destruct flow as [[]|].
    + destruct Hdev as [(Hc & _)|(c & -> & ->)]; [discriminate|].
      destruct (handoff_log_ext
                  {| dev := set_FwCache d c; result := res; trace := w ++ t |}
                  {| dev := set_FwCache d' c; result := res;
                     trace := w' ++ t |}
                  eq_refl eq_refl) as (h & Hh & Hh' & Hr & Hr' & _).
      unfold returned, events, finish. cbn [fst snd].
      rewrite Hh, Hh', Hr, Hr'. cbn [trace result].
      rewrite !other_events_app, Hwo, Hwo'. split; reflexivity.
    + unfold returned, events, finish. cbn [fst snd trace result].
      rewrite !other_events_app, Hwo, Hwo'. split; reflexivity.
  - intros keys out tbs sg cert pem Hk Ho Ht Hs Hc Hp Hflash.
    rewrite (Hrun d eq_refl eq_refl eq_refl eq_refl eq_refl).
    fold f0. rewrite Hw. cbn [dev result trace f0 app].
    destruct (make_alias_success dg
                {| dev := d; result := true; trace := w |}
                keys out tbs sg cert pem Hk Ho Ht Hs Hc Hp Hflash)
      as (c & e & Hm1 & Hc1 & Hc2 & Hc3 & Hc4 & Hc5 & Hc6).
    rewrite Hm1. cbn [dev trace] in *.
    destruct (handoff_log_ext
                {| dev := set_FwCache d c; result := true;
                   trace := w ++ [e; EvFlash (WrFwCache c)] |}
                {| dev := set_FwCache d c; result := true;
                   trace := w ++ [e; EvFlash (WrFwCache c)] |}
                eq_refl eq_refl) as (h & Hh & _ & Hr & _ & Hfc).
    unfold returned, after, events, finish. cbn [fst snd].
    rewrite Hh, Hr, Hfc. cbn [trace result dev set_FwCache FwCache].
    repeat split; try assumption.
    apply in_or_app. left. apply in_or_app. right. right. left. reflexivity.
Qed.

End Rollback.

Ltac pose_output name call :=
  let r := eval vm_compute in call in
  lazymatch r with
  | Some ?v => pose (name := v)
  end.

Lemma rollback_warns_and_proceeds_witness :
  let d := set_sign Sample.booted Sample.older_sign in
  let r := BarnacleVerifyAgent Sample.layout Sample.platform d in
  existsb is_rollback_warning (events r) = true /\ returned r = true /\
  existsb is_flash (events r) = true.
Proof.
  cbv zeta.
  pose (P := Sample.platform).
  pose (d := set_sign Sample.booted Sample.older_sign).
  pose (dg := Sample.hash (sign_bytes Sample.platform Sample.older_sign)).
  destruct (rollback_warns_and_proceeds Sample.layout P d dg)
    as (Hwarn & _ & Hgo).
  - unfold verified. cbv zeta.
    split; [vm_compute; reflexivity|].
    split; [vm_compute; discriminate|].
    split; [vm_compute; reflexivity|].
    split; [exists (Sample.hash Sample.code); split; vm_compute; reflexivity|].
    split; [vm_compute; reflexivity|].
    intros H. exfalso. revert H. vm_compute. discriminate.
  - vm_compute. reflexivity.
  - vm_compute. reflexivity.
  - left. vm_compute. discriminate.
  - split; [exact Hwarn|].
    pose_output keys (RiotCrypt_DeriveEccKey P dg RIOT_LABEL_IDENTITY).
    pose_output out
      (RiotCrypt_Kdf P (Z.of_nat SHA256_DIGEST_LENGTH) (fst keys)
         RIOT_LABEL_SERIAL).
    pose_output tbs
      (X509GetAliasCertTBS P
         (alias_TBSData
            (firstn RIOT_X509_SNUM_LEN (sanitize_serial (digest_buf out)))
            (agent_name (sign (AgentHdr d))))
         (fst keys) (id_pubKey (FwDeviceId d))
         (agent_digest (sign (AgentHdr d))) 1).
    pose_output sg (RiotCrypt_Sign P tbs (id_privKey (FwDeviceId d))).
    pose_output cert (X509MakeAliasCert P tbs sg).
    pose_output pem (DERtoPEM P cert (sizeof_FwCache_cert Sample.layout)).
    destruct (Hgo keys out tbs sg cert pem) as (Hret & Hin & _);
      try (vm_compute; reflexivity).
    split; [exact Hret|].
    apply existsb_exists. eexists. split; [exact Hin | reflexivity].
Defined.

(** ** C strings and base64 text *)

Lemma memcpy_at_cons_eq (buf : list Z) (off b : Z) (t : list Z) :
  memcpy_at buf off (b :: t) = memcpy_at (store buf off b) (off + 1) t.
Proof. reflexivity. Qed.

Lemma store_cons_succ (x : Z) (buf : list Z) (off y : Z) :
  0 <= off -> store (x :: buf) (off + 1) y = x :: store buf off y.
Proof.
  intros Hoff. unfold store.
  destruct (off + 1 <? 0) eqn:H1; [apply Z.ltb_lt in H1; lia|].
  destruct (off <? 0) eqn:H2; [apply Z.ltb_lt in H2; lia|].
  replace (Z.to_nat (off + 1)) with (S (Z.to_nat off)) by lia.
  reflexivity.
Qed.

Lemma memcpy_at_cons_succ (t : list Z) :
  forall x buf off,
    0 <= off ->
    memcpy_at (x :: buf) (off + 1) t = x :: memcpy_at buf off t.
Proof.
  induction t as [|b t IH]; intros x buf off Hoff; [reflexivity|].
  rewrite !memcpy_at_cons_eq, store_cons_succ by exact Hoff.
  apply IH. lia.
Qed.

Lemma memcpy_at_cons_0 (h x : Z) (buf t : list Z) :
  memcpy_at (h :: buf) 0 (x :: t) = x :: memcpy_at buf 0 t.
Proof.
  rewrite memcpy_at_cons_eq. change (0 + 1) with (0 + 1).
  change (store (h :: buf) 0 x) with (x :: buf).
  apply memcpy_at_cons_succ. lia.
Qed.

Lemma cstring_cons (b : Z) (t : list Z) :
  cstring (b :: t) = if b =? 0 then [] else b :: cstring t.
Proof. reflexivity. Qed.

(** A NUL-free text written with its terminator into a large enough
    buffer, then terminated again at the same place, reads back as the
    text. *)
Lemma cstring_written_text (text : list Z) :
  forall buf,
    Forall (fun b => b <> 0) text ->
    (List.length text < List.length buf)%nat ->
    cstring (store (memcpy_at buf 0 (text ++ [0]))
               (Z.of_nat (List.length text)) 0) = text.
Proof.
  induction text as [|x text IH]; intros buf Hnz Hlen.
  - destruct buf as [|h buf]; [simpl in Hlen; lia|]. reflexivity.
  - destruct buf as [|h buf]; [simpl in Hlen; lia|].
    inversion Hnz as [|? ? Hx Hrest]; subst.
    cbn [app]. rewrite memcpy_at_cons_0.
    replace (Z.of_nat (List.length (x :: text)))
      with (Z.of_nat (List.length text) + 1) by (cbn [List.length]; lia).
    rewrite store_cons_succ by lia.
    rewrite cstring_cons.
    destruct (x =? 0) eqn:Hx0; [apply Z.eqb_eq in Hx0; lia|].
    f_equal. apply IH; [exact Hrest | simpl in Hlen; lia].
Qed.

Lemma b64_char_not_NUL (v : Z) : nat_of_ascii (b64_char v) <> 0%nat.
Proof.
  unfold b64_char. generalize (Z.to_nat v) as n. intros n.
  do 64 (destruct n as [|n]; [vm_compute; discriminate|]).
  vm_compute. discriminate.
Qed.

Lemma base64_not_NUL (n : nat) :
  forall l, (List.length l <= n)%nat ->
    Forall (fun b => b <> 0) (bytes_of_string (base64 l)).
Proof.
  unfold bytes_of_string.
  assert (Hc : forall v, Z.of_nat (nat_of_ascii (b64_char v)) <> 0).
  { intros v. pose proof (b64_char_not_NUL v). lia. }
  induction n as [|n IH]; intros l Hl.
  - destruct l; [constructor | simpl in Hl; lia].
  - destruct l as [|a [|b [|c t]]]; cbn [base64 list_ascii_of_string map].
    + constructor.
    + repeat constructor; try apply Hc; vm_compute; discriminate.
    + repeat constructor; try apply Hc; vm_compute; discriminate.
    + repeat (constructor; [apply Hc|]).
      apply IH. simpl in Hl. lia.
Qed.

Lemma string_of_bytes_of_string (s : string) :
  string_of_bytes (bytes_of_string s) = s.
Proof.
  unfold string_of_bytes, bytes_of_string. rewrite map_map.
  rewrite <- (string_of_list_ascii_of_string s) at 2. f_equal.
  rewrite <- (map_id (list_ascii_of_string s)) at 2.
  apply map_ext. intros c. rewrite Nat2Z.id. apply ascii_nat_embedding.
Qed.

Lemma to_array_length (n : nat) (l : list Z) : List.length (to_array n l) = n.
Proof.
  unfold to_array. rewrite length_firstn, length_app, repeat_length. lia.
Qed.

(** ** The X.509 profile encoder *)

Section Encoder.

Import X509Bldr.

Context (E : Env).

(** Runs a chain of builder calls held in hypothesis [H]: each call that
    can fail is split, and the failing side contradicts [H]. *)
Ltac der_run H :=
  repeat
    (cbn in H;
     match type of H with
     | context [fits E ?x] =>
         let Hf := fresh "Hfits" in
         destruct (fits E x) eqn:Hf; [clear Hf | cbn in H; discriminate H]
     | context [match ?o with Some _ => _ | None => _ end] =>
         lazymatch o with
         | context [match _ with _ => _ end] => fail
         | context [if _ then _ else _] => fail
         | _ =>
             let Ho := fresh "Hcall" in
             destruct o eqn:Ho; [ | cbn in H; discriminate H]
         end
     end).

Ltac der_unfold H :=
  unfold X509GetRootCertTBS, X509GetDeviceCertTBS, X509GetAliasCertTBS,
    X509AddExtensions, X509AddX501Name, DERStartSequenceOrSet,
    DERStartExplicit, DERStartEnvelopingOctetString, DERPopNesting,
    DERAddBoolean, DERAddInteger, DERAddShortExplicitInteger,
    DERAddIntegerFromArray, DERAddOID, DERAddOctetString, DERAddBitString,
    DERAddUTF8String, DERAddUTCTime, ASRT, DERGetNestingDepth, push_frame,
    commit, add_item, DERInitContext in H.

Ltac der_finish H :=
  der_unfold H; der_run H; cbn in H; injection H as <-.

Lemma root_extensions TbsData RootKeyPub c :
  X509GetRootCertTBS E DERInitContext TbsData RootKeyPub = Some c ->
  TBS.extensions c = [TBS.keyUsage E; TBS.basicConstraints true 2].
Proof. intros H. der_finish H. reflexivity. Qed.

Lemma device_extensions TbsData DevIdKeyPub RootKeyPub RootKeyPubLen c :
  X509GetDeviceCertTBS E DERInitContext TbsData DevIdKeyPub RootKeyPub
    RootKeyPubLen = Some c ->
  TBS.extensions c =
    [TBS.keyUsage E; TBS.basicConstraints true 1] ++
    match RootKeyPub with
    | Some root =>
        [TBS.authKeyId (firstn 20 (TBS.sha1 E (firstn RootKeyPubLen root)))]
    | None => []
    end.
Proof.
  intros H. destruct RootKeyPub as [root|]; der_finish H; reflexivity.
Qed.

Lemma alias_extensions TbsData AliasKeyPub DevIdKeyPub Fwid FwidLen c :
  X509GetAliasCertTBS E DERInitContext TbsData AliasKeyPub DevIdKeyPub
    Fwid FwidLen = Some c ->
  exists devIdPub,
    RiotCrypt_ExportEccPub E DevIdKeyPub (sizeof_encBuffer E) = Some devIdPub /\
    TBS.extensions c =
      [TBS.keyUsage E; TBS.extKeyUsage clientAuthOID;
       TBS.authKeyId (firstn 20 (TBS.sha1 E devIdPub));
       TBS.riotExtension E devIdPub (firstn FwidLen Fwid)].
Proof.
  intros H. der_finish H.
  eexists. split; [reflexivity|].
  unfold TBS.extensions, TBS.fields, TBS.sha1. cbn.
  rewrite !firstn_all. reflexivity.
Qed.

(** C8: the extensions block of each certificate type.  The device
    certificate carries keyUsage and basicConstraints (CA, pathLen 1), and
    authorityKeyIdentifier exactly when [RootKeyPub] is not [NULL]; the
    root certificate carries keyUsage and basicConstraints (CA, pathLen 2);
    the alias certificate carries keyUsage, extendedKeyUsage clientAuth,
    authorityKeyIdentifier (SHA-1 of the exported DevID public key) and the
    RIoT extension, and nothing with the basicConstraints OID. *)
Theorem extension_composition :
  (forall TbsData DevIdKeyPub RootKeyPub RootKeyPubLen c,
     X509GetDeviceCertTBS E DERInitContext TbsData DevIdKeyPub RootKeyPub
       RootKeyPubLen = Some c ->
     TBS.extensions c =
       [TBS.keyUsage E; TBS.basicConstraints true 1] ++
       match RootKeyPub with
       | Some root =>
           [TBS.authKeyId (firstn 20 (TBS.sha1 E (firstn RootKeyPubLen root)))]
       | None => []
       end) /\
  (forall TbsData RootKeyPub c,
     X509GetRootCertTBS E DERInitContext TbsData RootKeyPub = Some c ->
     TBS.extensions c = [TBS.keyUsage E; TBS.basicConstraints true 2]) /\
  (forall TbsData AliasKeyPub DevIdKeyPub Fwid FwidLen c,
     X509GetAliasCertTBS E DERInitContext TbsData AliasKeyPub DevIdKeyPub
       Fwid FwidLen = Some c ->
     exists devIdPub,
       RiotCrypt_ExportEccPub E DevIdKeyPub (sizeof_encBuffer E) =
         Some devIdPub /\
       TBS.extensions c =
         [TBS.keyUsage E; TBS.extKeyUsage clientAuthOID;
          TBS.authKeyId (firstn 20 (TBS.sha1 E devIdPub));
          TBS.riotExtension E devIdPub (firstn FwidLen Fwid)] /\
       Forall (fun e => TBS.ext_oid e <> Some basicConstraintsOID)
         (TBS.extensions c)).
Proof.
  split; [|split].
  - apply device_extensions.
  - apply root_extensions.
  - intros TbsData AliasKeyPub DevIdKeyPub Fwid FwidLen c H.
    destruct (alias_extensions _ _ _ _ _ _ H) as (pub & Hpub & Hext).
    exists pub. split; [exact Hpub|]. split; [exact Hext|].
    rewrite Hext. repeat constructor; simpl; discriminate.
Qed.

(** *** The alias certificate's subject common name *)

Lemma alias_subject_common_spec TbsData DevIdKeyPub name cn :
  Base64Encode_terminated E ->
  SubjectCommon TbsData = Some name ->
  alias_subject_common E TbsData DevIdKeyPub = Some cn ->
  if starts_with_star name
  then exists devIdPub,
         RiotCrypt_ExportEccPub E DevIdKeyPub (sizeof_encBuffer E) =
           Some devIdPub /\
         cn = device_guid E devIdPub
  else cn = name.
Proof.
  intros Hb64 Hname. unfold alias_subject_common, GenerateGuidFromSeed.
  rewrite Hname.
  destruct (starts_with_star name); [|congruence].
  destruct (RiotCrypt_ExportEccPub E DevIdKeyPub (sizeof_encBuffer E))
    as [pub|]; [|discriminate].
  destruct (Base64Encode E _ 64) as [[out n]|] eqn:Henc; [|discriminate].
  intros Hcn. injection Hcn as <-.
  exists pub. split; [reflexivity|].
  destruct (Hb64 _ _ _ _ Henc) as (-> & -> & Hcap).
  cbn [fst snd]. unfold device_guid.
  set (text := bytes_of_string (base64 _)) in *.
  replace (Z.of_nat (List.length (text ++ [0])) - 1)
    with (Z.of_nat (List.length text))
    by (rewrite length_app; cbn [List.length]; lia).
  rewrite cstring_written_text.
  - apply string_of_bytes_of_string.
  - apply (base64_not_NUL _ _ (le_n _)).
  - rewrite to_array_length. rewrite length_app in Hcap.
    cbn [List.length] in Hcap. lia.
Qed.

Lemma alias_subject_in_TBS TbsData AliasKeyPub DevIdKeyPub Fwid FwidLen c :
  X509GetAliasCertTBS E DERInitContext TbsData AliasKeyPub DevIdKeyPub
    Fwid FwidLen = Some c ->
  exists cn,
    alias_subject_common E TbsData DevIdKeyPub = Some cn /\
    TBS.subject_CN c = Some cn.
Proof.
  intros H. der_unfold H.
  destruct (alias_subject_common E TbsData DevIdKeyPub) as [cn|] eqn:Hcn;
    [|discriminate H].
  exists cn. split; [reflexivity|].
  clear Hcn.
  der_run H.
  cbn in H. injection H as <-. reflexivity.
Qed.

(** C9: in the TBS [X509GetAliasCertTBS] builds, the subject common name is
    the base64 text of the first 16 bytes of the SHA-256 digest of the
    exported DevID public key when the caller's name begins with ['*'] (the
    name ["*"] in particular), and the caller's name otherwise.
    [Base64Encode], which is not part of this file, is taken to write the
    text with its terminator and to count both in [*OutLen]. *)
Theorem alias_subject_common_name
  TbsData AliasKeyPub DevIdKeyPub Fwid FwidLen name c :
  Base64Encode_terminated E ->
  SubjectCommon TbsData = Some name ->
  X509GetAliasCertTBS E DERInitContext TbsData AliasKeyPub DevIdKeyPub
    Fwid FwidLen = Some c ->
  if starts_with_star name
  then exists devIdPub,
         RiotCrypt_ExportEccPub E DevIdKeyPub (sizeof_encBuffer E) =
           Some devIdPub /\
         TBS.subject_CN c = Some (device_guid E devIdPub)
  else TBS.subject_CN c = Some name.
Proof.
  intros Hb64 Hname H.
  destruct (alias_subject_in_TBS _ _ _ _ _ _ H) as (cn & Hcn & Hsub).
  pose proof (alias_subject_common_spec _ _ _ _ Hb64 Hname Hcn) as Hspec.
  destruct (starts_with_star name).
  - destruct Hspec as (pub & Hpub & ->). exists pub. split; assumption.
  - subst cn. exact Hsub.
Qed.

End Encoder.

Lemma extension_composition_witness :
  let E := SampleEnv.env in
  let run t := option_map TBS.extensions t in
  run (X509Bldr.X509GetDeviceCertTBS E X509Bldr.DERInitContext
         (SampleEnv.tbsData "CyReP Device") SampleEnv.devIdPub None 0) =
    Some [TBS.keyUsage E; TBS.basicConstraints true 1] /\
  run (X509Bldr.X509GetDeviceCertTBS E X509Bldr.DERInitContext
         (SampleEnv.tbsData "CyReP Device") SampleEnv.devIdPub
         (Some SampleEnv.devIdPub) 1) =
    Some [TBS.keyUsage E; TBS.basicConstraints true 1;
          TBS.authKeyId (firstn 20 (TBS.sha1 E [1]))] /\
  run (X509Bldr.X509GetRootCertTBS E X509Bldr.DERInitContext
         (SampleEnv.tbsData "CyReP Root") SampleEnv.devIdPub) =
    Some [TBS.keyUsage E; TBS.basicConstraints true 2] /\
  run (X509Bldr.X509GetAliasCertTBS E X509Bldr.DERInitContext
         (SampleEnv.tbsData "Agent") SampleEnv.aliasPub SampleEnv.devIdPub
         SampleEnv.fwid 32) =
    Some [TBS.keyUsage E; TBS.extKeyUsage X509Bldr.clientAuthOID;
          TBS.authKeyId (firstn 20 (TBS.sha1 E (4 :: SampleEnv.devIdPub)));
          TBS.riotExtension E (4 :: SampleEnv.devIdPub) SampleEnv.fwid].
Proof.
  cbv zeta.
  destruct (extension_composition SampleEnv.env) as (Hdev & Hroot & Halias).
  split; [|split; [|split]].
  all: match goal with
       | |- option_map _ ?t = _ => destruct t as [c|] eqn:Hc
       end;
       [ cbn [option_map]; f_equal
       | exfalso; revert Hc; vm_compute; discriminate ].
  - apply (Hdev _ _ _ _ _ Hc).
  - apply (Hdev _ _ _ _ _ Hc).
  - apply (Hroot _ _ _ Hc).
  - destruct (Halias _ _ _ _ _ _ Hc) as (pub & Hpub & Hext & _).
    rewrite Hext.
    assert (Epub : pub = 4 :: SampleEnv.devIdPub).
    { revert Hpub. vm_compute. intros Hpub. injection Hpub as <-.
      reflexivity. }
    rewrite Epub. reflexivity.
Defined.

Lemma SampleEnv_Base64Encode_terminated :
  Base64Encode_terminated SampleEnv.env.
Proof.
  intros input cap out n. cbn [X509Bldr.Base64Encode SampleEnv.env].
  unfold SampleEnv.Base64Encode.
  destruct (Z.of_nat _ <=? cap) eqn:Hcap; [|discriminate].
  intros H. injection H as <- <-. apply Z.leb_le in Hcap.
  split; [reflexivity | split; [reflexivity | exact Hcap]].
Qed.

Lemma alias_subject_common_name_witness :
  let E := SampleEnv.env in
  let subject name :=
    option_map TBS.subject_CN
      (X509Bldr.X509GetAliasCertTBS E X509Bldr.DERInitContext
         (SampleEnv.tbsData name) SampleEnv.aliasPub SampleEnv.devIdPub
         SampleEnv.fwid 32) in
  subject "*"%string =
    Some (Some (device_guid E (4 :: SampleEnv.devIdPub))) /\
  subject "Agent"%string = Some (Some "Agent"%string).
Proof.
  cbv zeta. split.
  - destruct (X509Bldr.X509GetAliasCertTBS _ _ (SampleEnv.tbsData "*") _ _ _ _)
      as [c|] eqn:Hc;
      [|exfalso; revert Hc; vm_compute; discriminate].
    cbn [option_map]. f_equal.
    pose proof (alias_subject_common_name SampleEnv.env (SampleEnv.tbsData "*")
                  _ _ _ _ "*"%string c
                  SampleEnv_Base64Encode_terminated eq_refl Hc) as H.
    cbn [X509Bldr.starts_with_star Ascii.eqb Bool.eqb andb] in H.
    destruct H as (pub & Hpub & ->).
    assert (Epub : pub = 4 :: SampleEnv.devIdPub).
    { revert Hpub. vm_compute. intros Hpub. injection Hpub as <-.
      reflexivity. }
    rewrite Epub. reflexivity.
  - destruct (X509Bldr.X509GetAliasCertTBS _ _ (SampleEnv.tbsData "Agent")
                _ _ _ _) as [c|] eqn:Hc;
      [|exfalso; revert Hc; vm_compute; discriminate].
    cbn [option_map]. f_equal.
    exact (alias_subject_common_name SampleEnv.env
             (SampleEnv.tbsData "Agent") _ _ _ _ "Agent"%string c
             SampleEnv_Base64Encode_terminated eq_refl Hc).
Defined.

Example device_guid_sample :
  device_guid SampleEnv.env (4 :: SampleEnv.devIdPub) =
  "Z3SBjpuotcLP3On2AxAdKg=="%string.
Proof. vm_compute. reflexivity. Qed.

(** ** The DFU mode string *)

Lemma string_app_assoc (a b c : string) :
  ((a ++ b) ++ c = a ++ (b ++ c))%string.
Proof. induction a as [|x a IH]; simpl; [reflexivity | now rewrite IH]. Qed.

Lemma string_app_nil_r (a : string) : (a ++ "" = a)%string.
Proof. induction a as [|x a IH]; simpl; [reflexivity | now rewrite IH]. Qed.

Lemma string_length_app (a b : string) :
  String.length (a ++ b) = (String.length a + String.length b)%nat.
Proof. induction a as [|x a IH]; simpl; [reflexivity | now rewrite IH]. Qed.

(** *** The conversions print positional numerals *)

Lemma digit_char_digit_at (d : Z) : 0 <= d < 16 -> digit_char d = digit_at d.
Proof.
  intros Hd.
  assert (Hcases : exists k, (k < 16)%nat /\ d = Z.of_nat k).
  { exists (Z.to_nat d). split; lia. }
  destruct Hcases as (k & Hk & ->).
  do 16 (destruct k as [|k]; [vm_compute; reflexivity|]).
  lia.
Qed.

Lemma numeral_length (b : Z) (k : nat) :
  forall n, String.length (numeral b k n) = k.
Proof.
  induction k as [|k IH]; intros n; [reflexivity|].
  cbn [numeral]. rewrite string_length_app, IH. cbn [String.length]. lia.
Qed.

Lemma zeros_snoc (k : nat) : (zeros k ++ "0" = String "0" (zeros k))%string.
Proof.
  induction k as [|k IH]; [reflexivity|].
  cbn [zeros append]. now rewrite IH.
Qed.

(** Digits above the most significant one are zeros. *)
Lemma numeral_pad (b : Z) (k : nat) :
  2 <= b ->
  forall (m : nat) (n : Z),
    (m <= k)%nat -> 0 <= n < b ^ Z.of_nat m ->
    numeral b k n = (zeros (k - m) ++ numeral b m n)%string.
Proof.
  intros Hb. induction k as [|k IH]; intros m n Hm Hn.
  - assert (m = 0%nat) by lia. subst m. reflexivity.
  - destruct m as [|m].
    + assert (n = 0) by (change (Z.of_nat 0) with 0 in Hn;
                         rewrite Z.pow_0_r in Hn; lia).
      subst n. cbn [numeral].
      rewrite Z.div_0_l, Z.mod_0_l by lia.
      rewrite (IH 0%nat 0) by (change (Z.of_nat 0) with 0;
                                rewrite ?Z.pow_0_r; lia).
      cbn [numeral]. rewrite !Nat.sub_0_r, !string_app_nil_r.
      apply zeros_snoc.
    + cbn [numeral].
      assert (Hdiv : 0 <= n / b < b ^ Z.of_nat m).
      { split; [apply Z.div_pos; lia|].
        apply Z.div_lt_upper_bound; [lia|].
        rewrite <- Z.pow_succ_r by lia.
        replace (Z.succ (Z.of_nat m)) with (Z.of_nat (S m)) by lia. lia. }
      rewrite (IH m (n / b)) by (try lia; exact Hdiv).
      rewrite string_app_assoc. reflexivity.
Qed.

(** The conversion loop writes the digits of [n], the fewest that hold
    it. *)
Lemma utoa_aux_numeral (b : Z) (fuel : nat) :
  2 <= b <= 16 ->
  forall (k : nat) (n : Z) (acc : string),
    (1 <= k <= fuel)%nat -> 0 <= n < b ^ Z.of_nat k ->
    exists m, (1 <= m <= k)%nat /\ n < b ^ Z.of_nat m /\
              utoa_aux b fuel n acc = (numeral b m n ++ acc)%string.
Proof.
  intros Hb. induction fuel as [|fuel IH]; intros k n acc Hk Hn; [lia|].
  assert (Hmod : 0 <= n mod b < 16)
    by (pose proof (Z.mod_pos_bound n b); lia).
  cbn [utoa_aux]. destruct (n / b =? 0) eqn:Hq.
  - apply Z.eqb_eq in Hq. exists 1%nat.
    split; [lia|]. split.
    + change (Z.of_nat 1) with 1. rewrite Z.pow_1_r.
      apply Z.div_small_iff in Hq; lia.
    + cbn [numeral append]. now rewrite digit_char_digit_at.
  - apply Z.eqb_neq in Hq.
    destruct k as [|[|k]]; [lia| |].
    { exfalso. apply Hq. apply Z.div_small.
      change (Z.of_nat 1) with 1 in Hn. rewrite Z.pow_1_r in Hn. lia. }
    assert (Hdiv : 0 <= n / b < b ^ Z.of_nat (S k)).
    { split; [apply Z.div_pos; lia|].
      apply Z.div_lt_upper_bound; [lia|].
      rewrite <- Z.pow_succ_r by lia.
      replace (Z.succ (Z.of_nat (S k))) with (Z.of_nat (S (S k))) by lia.
      lia. }
    destruct (IH (S k) (n / b) (String (digit_char (n mod b)) acc)
                ltac:(lia) Hdiv) as (m & Hm & Hlt & ->).
    exists (S m). split; [lia|]. split.
    + replace (Z.of_nat (S m)) with (Z.succ (Z.of_nat m)) by lia.
      rewrite Z.pow_succ_r by lia.
      pose proof (Z.mul_div_le n b ltac:(lia)).
      pose proof (Z.mod_pos_bound n b ltac:(lia)).
      pose proof (Z.div_mod n b ltac:(lia)). nia.
    + cbn [numeral]. rewrite string_app_assoc. cbn [append].
      now rewrite digit_char_digit_at.
Qed.

Lemma pad0_utoa_numeral (b : Z) (k : nat) (n : Z) :
  2 <= b <= 16 -> (1 <= k <= 32)%nat -> 0 <= n < b ^ Z.of_nat k ->
  n < 2 ^ 32 ->
  pad0 k (utoa b n) = numeral b k n.
Proof.
  intros Hb Hk Hn Hu. unfold pad0, utoa.
  rewrite (Z.mod_small n (2 ^ 32) ltac:(lia) : u32 n = n).
  destruct (utoa_aux_numeral b 32 Hb k n "" ltac:(lia) Hn)
    as (m & Hm & Hlt & ->).
  rewrite string_app_nil_r, numeral_length.
  symmetry. apply numeral_pad; lia.
Qed.

(** ["%08x"] prints the eight hexadecimal digits of a 32-bit value. *)
Lemma fmt_08x_numeral (a : Z) :
  0 <= a < 2 ^ 32 -> fmt_08x a = numeral 16 8 a.
Proof.
  intros Ha. apply pad0_utoa_numeral; try lia.
  all: change (16 ^ Z.of_nat 8) with (2 ^ 32); exact Ha.
Qed.

(** ["%02u"] prints the two decimal digits of a value below 100. *)
Lemma fmt_02u_numeral (n : Z) :
  0 <= n <= 99 -> fmt_02u n = numeral 10 2 n.
Proof.
  intros Hn. apply pad0_utoa_numeral; try lia.
  all: change (10 ^ Z.of_nat 2) with 100; lia.
Qed.

(** *** Text stored in the array *)

Lemma u32_small (x : Z) : 0 <= x < 2 ^ 32 -> u32 x = x.
Proof. intros H. unfold u32. apply Z.mod_small. exact H. Qed.

(** Bytes copied to the start of an array replace as many of its bytes. *)
Lemma memcpy_at_start (src : list Z) :
  forall buf,
    (List.length src <= List.length buf)%nat ->
    memcpy_at buf 0 src = src ++ skipn (List.length src) buf.
Proof.
  induction src as [|x src IH]; intros buf Hlen; [reflexivity|].
  destruct buf as [|h buf]; [cbn [List.length] in Hlen; lia|].
  rewrite memcpy_at_cons_0, IH by (cbn [List.length] in Hlen; lia).
  reflexivity.
Qed.

(** Bytes copied behind a prefix leave the prefix alone. *)
Lemma memcpy_at_behind (pre : list Z) :
  forall buf src,
    memcpy_at (pre ++ buf) (Z.of_nat (List.length pre)) src =
    pre ++ memcpy_at buf 0 src.
Proof.
  induction pre as [|x pre IH]; intros buf src; [reflexivity|].
  cbn [List.length app].
  replace (Z.of_nat (S (List.length pre)))
    with (Z.of_nat (List.length pre) + 1) by lia.
  rewrite memcpy_at_cons_succ by lia. now rewrite IH.
Qed.

Lemma bytes_of_string_app (a b : string) :
  bytes_of_string (a ++ b) = bytes_of_string a ++ bytes_of_string b.
Proof.
  unfold bytes_of_string.
  induction a as [|c a IH]; [reflexivity|].
  cbn [append list_ascii_of_string map app]. now rewrite IH.
Qed.

Lemma bytes_of_string_length (a : string) :
  List.length (bytes_of_string a) = String.length a.
Proof.
  unfold bytes_of_string.
  induction a as [|c a IH]; [reflexivity|].
  cbn [list_ascii_of_string map List.length String.length]. now rewrite IH.
Qed.

(** A C string followed by its terminator reads back as written. *)
Lemma cstring_terminated (text rest : list Z) :
  Forall (fun b => b <> 0) text -> cstring (text ++ 0 :: rest) = text.
Proof.
  induction 1 as [|x text Hx _ IH]; [reflexivity|].
  cbn [app]. rewrite cstring_cons.
  destruct (x =? 0) eqn:Hx0; [apply Z.eqb_eq in Hx0; contradiction|].
  now rewrite IH.
Qed.

(** One [sprintf] behind the text written so far. *)
Lemma sprintf_at_appends (out text : string) (rest : list Z) :
  Z.of_nat (String.length out) + Z.of_nat (String.length text) + 1
    <= Z.of_nat (List.length (bytes_of_string out ++ rest)) ->
  exists rest',
    sprintf_at (bytes_of_string out ++ rest)
      (Z.of_nat (String.length out)) text =
      Some (bytes_of_string (out ++ text) ++ 0 :: rest',
            Z.of_nat (String.length text)) /\
    List.length (bytes_of_string (out ++ text) ++ 0 :: rest') =
    List.length (bytes_of_string out ++ rest).
Proof.
  intros Hfit. unfold sprintf_at.
  destruct (_ <=? _) eqn:Hle; [|apply Z.leb_gt in Hle; lia].
  rewrite length_app, bytes_of_string_length in Hfit.
  exists (skipn (List.length (bytes_of_string text ++ [0])) rest).
  split.
  - replace (Z.of_nat (String.length out))
      with (Z.of_nat (List.length (bytes_of_string out)))
      by (now rewrite bytes_of_string_length).
    rewrite memcpy_at_behind, memcpy_at_start
      by (rewrite length_app, bytes_of_string_length; cbn [List.length]; lia).
    rewrite bytes_of_string_app, <- !app_assoc. reflexivity.
  - repeat (rewrite ?length_app, ?length_skipn, ?bytes_of_string_length,
              ?string_length_app; cbn [List.length]).
    lia.
Qed.

Lemma page_groups_length (ns : list Z) :
  String.length (page_groups ns) = (9 * List.length ns)%nat.
Proof.
  induction ns as [|n ns IH]; [reflexivity|].
  cbn [page_groups List.length].
  rewrite !string_length_app, numeral_length, IH.
  cbn [String.length]. lia.
Qed.

(** Passes of the loop: one per 99 pages begun. *)
Lemma dfu_passes_0 (agentArea : Z) :
  agentArea <= 0 -> (Z.max agentArea 0 + 98) / 99 = 0.
Proof.
  intros H. replace (Z.max agentArea 0) with 0 by lia. reflexivity.
Qed.

Lemma dfu_passes_succ (agentArea : Z) :
  agentArea > 0 ->
  (Z.max agentArea 0 + 98) / 99 =
  (Z.max (agentArea - Z.min agentArea 99) 0 + 98) / 99 + 1.
Proof.
  intros H. destruct (Z_lt_dec agentArea 99) as [Hs|Hb].
  - replace (Z.max (agentArea - Z.min agentArea 99) 0) with 0 by lia.
    replace (Z.max agentArea 0 + 98) with (agentArea - 1 + 1 * 99) by lia.
    rewrite Z.div_add by lia. rewrite Z.div_small by lia. reflexivity.
  - replace (Z.max agentArea 0 + 98)
      with (Z.max (agentArea - Z.min agentArea 99) 0 + 98 + 1 * 99) by lia.
    rewrite Z.div_add by lia. reflexivity.
Qed.

Lemma dfu_loop_groups (agentArea : Z) (dfuString : list Z) (cursor : Z) :
  forall (out : string) (rest : list Z),
    dfuString = bytes_of_string out ++ rest ->
    cursor = Z.of_nat (String.length out) ->
    Z.of_nat (String.length out) + 9 * ((Z.max agentArea 0 + 98) / 99) + 1
      <= Z.of_nat (List.length dfuString) ->
    Z.of_nat (List.length dfuString) < 2 ^ 32 ->
    exists ns rest',
      dfu_loop agentArea dfuString cursor =
        Some (bytes_of_string (out ++ page_groups ns) ++ rest',
              Z.of_nat (String.length (out ++ page_groups ns))) /\
      List.length (bytes_of_string (out ++ page_groups ns) ++ rest') =
        List.length dfuString /\
      Forall (fun n => 1 <= n <= 99) ns /\
      zsum ns = Z.max agentArea 0 /\
      Z.of_nat (List.length ns) = (Z.max agentArea 0 + 98) / 99.
Proof.
  funelim (dfu_loop agentArea dfuString cursor);
    intros out rest Hbuf Hcur Hfit Hcap; subst.
  - exists [], rest. cbn [page_groups zsum fold_right List.length].
    rewrite string_app_nil_r.
    split; [reflexivity|]. split; [reflexivity|]. split; [constructor|].
    split; [lia|]. rewrite dfu_passes_0 by lia. reflexivity.
  - assert (Hit : 1 <= Z.min agentArea 99 <= 99) by lia.
    rewrite (dfu_passes_succ agentArea) in * by lia.
    assert (Hq : 0 <= (Z.max (agentArea - Z.min agentArea 99) 0 + 98) / 99)
      by (apply Z.div_pos; lia).
    set (it := Z.min agentArea 99) in *.
    assert (Hg : dfu_group it = (numeral 10 2 it ++ "*004Kf,")%string)
      by (unfold dfu_group; now rewrite fmt_02u_numeral by lia).
    assert (Hgl : String.length (dfu_group it) = 9%nat)
      by (rewrite Hg, string_length_app, numeral_length; reflexivity).
    destruct (sprintf_at_appends out (dfu_group it) rest)
      as (rest' & Hs & Hlen); [rewrite Hgl; lia|].
    rewrite Hs in Heq. injection Heq as <- <-.
    destruct (H (out ++ dfu_group it)%string (0 :: rest') eq_refl)
      as (ns & rest'' & Hrun & Hlen' & Hall & Hsum & Hcount).
    + rewrite string_length_app, Hgl, u32_small; lia.
    + rewrite Hlen, string_length_app, Hgl. lia.
    + rewrite Hlen. exact Hcap.
    + exists (it :: ns), rest''.
      cbn [page_groups]. rewrite Hg, !string_app_assoc in *.
      split; [exact Hrun|]. split; [congruence|].
      split; [constructor; [lia | exact Hall]|].
      split; [unfold zsum, it in *; cbn [fold_right]; lia|].
      cbn [List.length]. lia.
  - exfalso.
    assert (Hit : 1 <= Z.min agentArea 99 <= 99) by lia.
    rewrite (dfu_passes_succ agentArea) in Hfit by lia.
    assert (Hq : 0 <= (Z.max (agentArea - Z.min agentArea 99) 0 + 98) / 99)
      by (apply Z.div_pos; lia).
    destruct (sprintf_at_appends out (dfu_group (Z.min agentArea 99)) rest)
      as (rest' & Hs & _).
    { unfold dfu_group. rewrite fmt_02u_numeral by lia.
      rewrite string_length_app, numeral_length. cbn [String.length]. lia. }
    rewrite Hs in Heq. discriminate Heq.
Qed.

(** *** The text holds no NUL *)

Lemma nul_free_app (a b : string) :
  nul_free a -> nul_free b -> nul_free (a ++ b).
Proof.
  unfold nul_free. rewrite bytes_of_string_app. intros Ha Hb.
  apply Forall_app. split; assumption.
Qed.

Lemma digit_at_not_NUL (d : Z) : nat_of_ascii (digit_at d) <> 0%nat.
Proof.
  unfold digit_at. generalize (Z.to_nat d) as n. intros n.
  do 16 (destruct n as [|n]; [vm_compute; discriminate|]).
  vm_compute. discriminate.
Qed.

Lemma numeral_nul_free (b : Z) (k : nat) : forall n, nul_free (numeral b k n).
Proof.
  induction k as [|k IH]; intros n; [constructor|].
  cbn [numeral]. apply nul_free_app; [apply IH|].
  constructor; [|constructor].
  pose proof (digit_at_not_NUL (n mod b)). lia.
Qed.

Lemma page_groups_nul_free (ns : list Z) : nul_free (page_groups ns).
Proof.
  induction ns as [|n ns IH]; [constructor|].
  cbn [page_groups]. apply nul_free_app; [apply numeral_nul_free|].
  apply nul_free_app; [|exact IH].
  vm_compute. repeat constructor; discriminate.
Qed.

(** C10: with [dfuString] an array of 128 bytes, [AgentHdr] not above
    [IssuedCerts] as 32-bit addresses and at most 990 pages of 4K between
    them, [BarnacleGetDfuStr] leaves in the array the C string
    ["@Barnacle /0x"], the eight lowercase hexadecimal digits of the
    address of [AgentHdr], ["/"], then one group ["NN*004Kf,"] per entry of
    a list of page counts, each between 1 and 99 and written as its two
    decimal digits, whose sum is the number of pages, then ["01*04Ka"] when
    [BARNACLE_ISSUEDFLAG_WRITELOCK] is set in the flags and ["01*04Kg"]
    otherwise. *)
Theorem BarnacleGetDfuStr_format (L : Layout) (flags : Z) (dfuString : list Z) :
  Z.of_nat (List.length dfuString) = sizeof_dfuString ->
  0 <= AgentHdr_addr L <= IssuedCerts_addr L ->
  IssuedCerts_addr L < 2 ^ 32 ->
  (IssuedCerts_addr L - AgentHdr_addr L) / 4096 <= 990 ->
  exists ns buf,
    BarnacleGetDfuStr L flags dfuString = Some buf /\
    List.length buf = List.length dfuString /\
    string_of_bytes (cstring buf) =
      ("@Barnacle /0x" ++ numeral 16 8 (AgentHdr_addr L) ++ "/" ++
       page_groups ns ++
       (if Z.eqb (Z.land flags (BARNACLE_ISSUEDFLAG_WRITELOCK L)) 0
        then "01*04Kg" else "01*04Ka"))%string /\
    Forall (fun n => 1 <= n <= 99) ns /\
    zsum ns = (IssuedCerts_addr L - AgentHdr_addr L) / 4096.
Proof.
  intros Hsize Haddr Htop Hpages. unfold sizeof_dfuString in Hsize.
  assert (Harea : dfu_agentArea L
                  = (IssuedCerts_addr L - AgentHdr_addr L) / 4096).
  { unfold dfu_agentArea.
    rewrite (u32_small (IssuedCerts_addr L)), (u32_small (AgentHdr_addr L)),
      u32_small by lia.
    reflexivity. }
  assert (H0 : 0 <= dfu_agentArea L)
    by (rewrite Harea; apply Z.div_pos; lia).
  assert (H990 : dfu_agentArea L <= 990) by (rewrite Harea; exact Hpages).
  assert (Hpass : (Z.max (dfu_agentArea L) 0 + 98) / 99 <= 10).
  { apply Z.lt_succ_r. apply Z.div_lt_upper_bound; [lia|].
    change (99 * Z.succ 10) with 1089.
    generalize dependent (dfu_agentArea L). intros; lia. }
  unfold BarnacleGetDfuStr. cbv zeta. rewrite fmt_08x_numeral by lia.
  set (head := ("@Barnacle /0x" ++ numeral 16 8 (AgentHdr_addr L) ++ "/")%string).
  assert (Hhead : String.length head = 22%nat).
  { unfold head. rewrite !string_length_app, numeral_length. reflexivity. }
  destruct (sprintf_at_appends "" head dfuString) as (rest1 & Hs1 & Hlen1).
  { change (bytes_of_string "" ++ dfuString) with dfuString.
    change (Z.of_nat (String.length "")) with 0. rewrite Hhead. lia. }
  change (bytes_of_string "" ++ dfuString) with dfuString in Hs1, Hlen1.
  change (Z.of_nat (String.length "")) with 0 in Hs1.
  change ("" ++ head)%string with head in Hs1, Hlen1.
  rewrite Hs1, Z.add_0_l, u32_small by lia.
  destruct (dfu_loop_groups (dfu_agentArea L) _ _ head (0 :: rest1)
              eq_refl eq_refl) as (ns & rest2 & -> & Hlen2 & Hall & Hsum & Hn).
  { rewrite Hlen1, Hhead. lia. }
  { rewrite Hlen1. lia. }
  assert (Hout : String.length (head ++ page_groups ns)
                 = (22 + 9 * List.length ns)%nat)
    by (rewrite string_length_app, Hhead, page_groups_length; reflexivity).
  destruct (sprintf_at_appends (head ++ page_groups ns) (dfu_tail L flags)
              rest2) as (rest3 & -> & Hlen3).
  { rewrite Hlen2, Hlen1, Hout. unfold dfu_tail.
    cbn [String.length append]. lia. }
  exists ns. eexists. split; [reflexivity|].
  split; [congruence|].
  split; [|split; [exact Hall | rewrite Hsum, <- Harea; lia]].
  assert (Htail : dfu_tail L flags =
                  if Z.land flags (BARNACLE_ISSUEDFLAG_WRITELOCK L) =? 0
                  then "01*04Kg"%string else "01*04Ka"%string).
  { unfold dfu_tail, dfu_lock_char.
    destruct (Z.land flags (BARNACLE_ISSUEDFLAG_WRITELOCK L) =? 0);
      reflexivity. }
  rewrite cstring_terminated, string_of_bytes_of_string.
  - unfold head. rewrite Htail, !string_app_assoc. reflexivity.
  - apply nul_free_app; [apply nul_free_app|].
    + unfold head. apply nul_free_app;
        [vm_compute; repeat constructor; discriminate|].
      apply nul_free_app; [apply numeral_nul_free|].
      vm_compute. repeat constructor; discriminate.
    + apply page_groups_nul_free.
    + rewrite Htail.
      destruct (Z.land flags (BARNACLE_ISSUEDFLAG_WRITELOCK L) =? 0);
        vm_compute; repeat constructor; discriminate.
Qed.

Lemma BarnacleGetDfuStr_format_witness :
  exists ns buf,
    BarnacleGetDfuStr Sample.layout 4 (repeat 0 128) = Some buf /\
    string_of_bytes (cstring buf) =
      ("@Barnacle /0x08020000/" ++ page_groups ns ++ "01*04Ka")%string /\
    Forall (fun n => 1 <= n <= 99) ns /\
    zsum ns = 222.
Proof.
  destruct (BarnacleGetDfuStr_format Sample.layout 4 (repeat 0 128))
    as (ns & buf & H1 & _ & H2 & H3 & H4).
  - reflexivity.
  - simpl; lia.
  - simpl; lia.
  - vm_compute. discriminate.
  - exists ns, buf. split; [exact H1|].
    split; [exact H2 | split; [exact H3 | exact H4]].
Defined.

(** The text for the memory map of the sample layout, 222 pages, whatever
    the array held before. *)
Example BarnacleGetDfuStr_sample :
  option_map (fun buf => string_of_bytes (cstring buf))
    (BarnacleGetDfuStr Sample.layout 0 (repeat 0x55 128)) =
  Some "@Barnacle /0x08020000/99*004Kf,99*004Kf,24*004Kf,01*04Kg"%string.
Proof. vm_compute. reflexivity. Qed.

(** With 991 pages the twelfth [sprintf] would store past the end of
    [dfuString]. *)
Example BarnacleGetDfuStr_past_the_array :
  let L := {| BARNACLEMAGIC := 0; BARNACLEVERSION := 0;
              BARNACLE_ISSUEDFLAG_PROVISIONIED := 1;
              BARNACLE_ISSUEDFLAG_AUTHENTICATED_BOOT := 2;
              BARNACLE_ISSUEDFLAG_WRITELOCK := 4;
              AgentHdr_addr := 0x08020000;
              AGENTCODE_addr := 0x08020800;
              IssuedCerts_addr := 0x08020000 + 991 * 4096;
              sizeof_CertStore_certBag := 96;
              sizeof_IssuedCerts_certBag := 64;
              sizeof_FwCache_cert := 128;
              sizeof_RIOT_ECC_PUBLIC := 4 |} in
  BarnacleGetDfuStr L 0 (repeat 0 128) = None.
Proof. vm_compute. reflexivity. Qed.
